(** * EQ-platform: menu, edit and motor-state logic of the stepper controller

    A shallow embedding of the Arduino sketch in its current revision:
    five menu pages, the home and end limit switches, the two speeds kept
    in EEPROM and the "Save" page that exists only while the working speeds
    differ from the saved ones.

    The sketch uses the AVR flavour of the Arduino core ([EEPROM.h] without
    [EEPROM.begin]/[EEPROM.commit]); on that target [int] is a 16-bit
    two's-complement integer, [uint8_t]/[byte] is 8 bits wide and
    [unsigned long] is 32 bits wide.  Integers are modelled as [Z] with the
    conversions written out.

    External collaborators (the stepper driver, the display, the digital
    inputs) are modelled by a log of the calls issued to them; the EEPROM
    content is part of the machine state. *)

From Stdlib Require Import ZArith List Bool Lia.
Import ListNotations.
Local Open Scope Z_scope.

(** ** C integer conversions (AVR) *)

Module CInt.

(** conversion to [uint8_t] / [byte] *)
Definition to_uint8 (z : Z) : Z := z mod 256.

(** conversion to (16-bit, signed) [int] *)
Definition to_int (z : Z) : Z := (z + 32768) mod 65536 - 32768.

(** conversion to (16-bit) [unsigned int] *)
Definition to_uint (z : Z) : Z := z mod 65536.

(** conversion to (32-bit) [unsigned long] *)
Definition to_ulong (z : Z) : Z := z mod 4294967296.

End CInt.

(** ** The outside world *)

(** Pins read with [digitalRead] by the sketch itself (the clock and the
    push-button pins are read by the debouncers). *)
Inductive Pin : Type :=
| DT_PIN
| HOME_SWITCH_PIN
| END_SWITCH_PIN.

(** Display texts. *)
Inductive Text : Type :=
| startButton
| stopButton
| stoppedText
| runningText
| returningHomeText.

(** What [updateMainScreen] draws, as far as it depends on the state.  The
    fixed captions ("Track speed", "Home speed", "Home") are always drawn. *)
Record Screen : Type := mkScreen {
  shownTrackSpeed : Z;          (* value printed after "Track speed" *)
  shownHomeSpeed : Z;           (* value printed after "Home speed" *)
  startStopCaption : Text;      (* startButton or stopButton *)
  saveShown : bool;             (* the "Save" caption is printed *)
  motorCaption : option Text;   (* status line *)
  blanked : option Z;           (* edit mode: value hidden by the blink *)
  underlined : option Z         (* normal mode: page whose marker is drawn *)
}.

(** Calls issued to the external collaborators. *)
Inductive Call : Type :=
| DigitalRead (p : Pin)
| StepperSetMaxSpeed (v : Z)
| StepperSetSpeed (v : Z)
| StepperSetAcceleration (a : Z)
| StepperRunSpeed
| Display (s : Screen).

(** The inputs sampled during one iteration of [loop]. *)
Record Inputs : Type := mkInputs {
  switchFell : bool;       (* debouncerSwitch.fell() *)
  clkFell : bool;          (* debouncerClk.fell() *)
  level : Pin -> bool;     (* digitalRead: true is HIGH *)
  millisCheck : Z;         (* millis() read by checkTimeoutExpired *)
  millisStore : Z          (* millis() stored after a blink toggle *)
}.

(** ** The machine state: the sketch's globals and the EEPROM content *)

Record Machine : Type := mkMachine {
  editMode : bool;
  lastUpdateEditModeScreen : Z;
  editModeBlinkDark : bool;
  stepperTrackingSpeed : Z;
  homeSpeed : Z;
  initialStepperTrackingSpeed : Z;
  initialHomeSpeed : Z;
  motorRunning : Z;
  currentPageIndex : Z;
  EEPROM : Z -> Z
}.

Definition stepper_speed_address : Z := 0.
Definition home_speed_address : Z := 2.

(** The globals as their initialisers leave them, over an EEPROM content. *)
Definition powerOn (e : Z -> Z) : Machine :=
  {| editMode := false;
     lastUpdateEditModeScreen := 0;
     editModeBlinkDark := false;
     stepperTrackingSpeed := 1;
     homeSpeed := 100;
     initialStepperTrackingSpeed := 1;
     initialHomeSpeed := 100;
     motorRunning := 0;
     currentPageIndex := 3;
     EEPROM := e |}.

(** An erased EEPROM: every cell reads 0xFF. *)
Definition erased : Z -> Z := fun _ => 255.

(** Assignments to the globals. *)

Definition set_editMode (b : bool) (m : Machine) : Machine :=
  mkMachine b (lastUpdateEditModeScreen m) (editModeBlinkDark m)
    (stepperTrackingSpeed m) (homeSpeed m) (initialStepperTrackingSpeed m)
    (initialHomeSpeed m) (motorRunning m) (currentPageIndex m) (EEPROM m).

Definition set_lastUpdateEditModeScreen (t : Z) (m : Machine) : Machine :=
  mkMachine (editMode m) t (editModeBlinkDark m)
    (stepperTrackingSpeed m) (homeSpeed m) (initialStepperTrackingSpeed m)
    (initialHomeSpeed m) (motorRunning m) (currentPageIndex m) (EEPROM m).

Definition set_editModeBlinkDark (b : bool) (m : Machine) : Machine :=
  mkMachine (editMode m) (lastUpdateEditModeScreen m) b
    (stepperTrackingSpeed m) (homeSpeed m) (initialStepperTrackingSpeed m)
    (initialHomeSpeed m) (motorRunning m) (currentPageIndex m) (EEPROM m).

Definition set_stepperTrackingSpeed (v : Z) (m : Machine) : Machine :=
  mkMachine (editMode m) (lastUpdateEditModeScreen m) (editModeBlinkDark m)
    v (homeSpeed m) (initialStepperTrackingSpeed m)
    (initialHomeSpeed m) (motorRunning m) (currentPageIndex m) (EEPROM m).

Definition set_homeSpeed (v : Z) (m : Machine) : Machine :=
  mkMachine (editMode m) (lastUpdateEditModeScreen m) (editModeBlinkDark m)
    (stepperTrackingSpeed m) v (initialStepperTrackingSpeed m)
    (initialHomeSpeed m) (motorRunning m) (currentPageIndex m) (EEPROM m).

Definition set_initialStepperTrackingSpeed (v : Z) (m : Machine) : Machine :=
  mkMachine (editMode m) (lastUpdateEditModeScreen m) (editModeBlinkDark m)
    (stepperTrackingSpeed m) (homeSpeed m) v
    (initialHomeSpeed m) (motorRunning m) (currentPageIndex m) (EEPROM m).

Definition set_initialHomeSpeed (v : Z) (m : Machine) : Machine :=
  mkMachine (editMode m) (lastUpdateEditModeScreen m) (editModeBlinkDark m)
    (stepperTrackingSpeed m) (homeSpeed m) (initialStepperTrackingSpeed m)
    v (motorRunning m) (currentPageIndex m) (EEPROM m).

Definition set_motorRunning (v : Z) (m : Machine) : Machine :=
  mkMachine (editMode m) (lastUpdateEditModeScreen m) (editModeBlinkDark m)
    (stepperTrackingSpeed m) (homeSpeed m) (initialStepperTrackingSpeed m)
    (initialHomeSpeed m) v (currentPageIndex m) (EEPROM m).

Definition set_currentPageIndex (v : Z) (m : Machine) : Machine :=
  mkMachine (editMode m) (lastUpdateEditModeScreen m) (editModeBlinkDark m)
    (stepperTrackingSpeed m) (homeSpeed m) (initialStepperTrackingSpeed m)
    (initialHomeSpeed m) (motorRunning m) v (EEPROM m).

Definition set_EEPROM (e : Z -> Z) (m : Machine) : Machine :=
  mkMachine (editMode m) (lastUpdateEditModeScreen m) (editModeBlinkDark m)
    (stepperTrackingSpeed m) (homeSpeed m) (initialStepperTrackingSpeed m)
    (initialHomeSpeed m) (motorRunning m) (currentPageIndex m) e.

(** ** Procedures: state passing with a log of the external calls *)

Definition Proc (A : Type) : Type := Machine -> A * Machine * list Call.

Definition ret {A : Type} (a : A) : Proc A := fun m => (a, m, []).

Definition bind {A B : Type} (p : Proc A) (k : A -> Proc B) : Proc B :=
  fun m =>
    let '(a, m1, c1) := p m in
    let '(b, m2, c2) := k a m1 in
    (b, m2, c1 ++ c2).

Definition gets {A : Type} (f : Machine -> A) : Proc A := fun m => (f m, m, []).

Definition modify (f : Machine -> Machine) : Proc unit := fun m => (tt, f m, []).

Definition call (c : Call) : Proc unit := fun m => (tt, m, [c]).

Definition when (b : bool) (p : Proc unit) : Proc unit := if b then p else ret tt.

Declare Scope proc_scope.
Delimit Scope proc_scope with proc.
Notation "x <- p ;; k" := (bind p (fun x => k))
  (at level 61, p at next level, right associativity) : proc_scope.
Notation "p ;; k" := (bind p (fun _ => k))
  (at level 61, right associativity) : proc_scope.
Local Open Scope proc_scope.

(** The state a procedure ends in, and the calls it issued. *)
Definition state_after {A : Type} (p : Proc A) (m : Machine) : Machine :=
  snd (fst (p m)).

Definition calls_of {A : Type} (p : Proc A) (m : Machine) : list Call :=
  snd (p m).

Definition value_of {A : Type} (p : Proc A) (m : Machine) : A :=
  fst (fst (p m)).

(** ** The sketch *)

Definition digitalRead (i : Inputs) (p : Pin) : Proc bool :=
  call (DigitalRead p) ;; ret (level i p).

(** [EEPROM.read] returns a [uint8_t]. *)
Definition EEPROM_read (address : Z) : Proc Z :=
  gets (fun m => CInt.to_uint8 (EEPROM m address)).

(** [EEPROM.write] stores a [uint8_t]. *)
Definition EEPROM_write (address value : Z) : Proc unit :=
  modify (fun m =>
    set_EEPROM (fun a => if a =? address then CInt.to_uint8 value else EEPROM m a) m).

(** The condition that gates the "Save" caption and the fifth page; the
    sketch writes it out at each of its three uses. *)
Definition isDirty (m : Machine) : bool :=
  negb (stepperTrackingSpeed m =? initialStepperTrackingSpeed m)
  || negb (homeSpeed m =? initialHomeSpeed m).

Definition checkTimeoutExpired (currentMillis lastChange timeoutDuration : Z) : bool :=
  timeoutDuration <=? CInt.to_ulong (currentMillis - lastChange).

Definition screenOf (m : Machine) : Screen :=
  {| shownTrackSpeed := stepperTrackingSpeed m;
     shownHomeSpeed := homeSpeed m;
     startStopCaption := if motorRunning m =? 0 then startButton else stopButton;
     saveShown := isDirty m;
     motorCaption :=
       if motorRunning m =? 0 then Some stoppedText
       else if motorRunning m =? 1 then Some runningText
       else if motorRunning m =? -1 then Some returningHomeText
       else None;
     blanked :=
       if editMode m && editModeBlinkDark m then
         if currentPageIndex m =? 1 then Some 1
         else if currentPageIndex m =? 2 then Some 2
         else None
       else None;
     underlined :=
       if editMode m then None
       else if (1 <=? currentPageIndex m) && (currentPageIndex m <=? 4)
            then Some (currentPageIndex m)
       else if currentPageIndex m =? 5
            then (if isDirty m then Some 5 else None)
       else None |}.

Definition updateMainScreen : Proc unit :=
  m <- gets (fun m => m) ;;
  call (Display (screenOf m)).

Definition startStopButtonPressed : Proc unit :=
  v <- gets stepperTrackingSpeed ;;
  call (StepperSetSpeed v) ;;
  call (StepperSetAcceleration 20) ;;
  modify (fun m => set_motorRunning (if motorRunning m =? 0 then 1 else 0) m).

Definition returnHomePressed : Proc unit :=
  v <- gets homeSpeed ;;
  call (StepperSetSpeed (CInt.to_int (- v))) ;;
  call (StepperSetAcceleration 20) ;;
  modify (set_motorRunning (-1)).

Definition writeIntIntoEEPROM (address number : Z) : Proc unit :=
  let byte1 := CInt.to_uint8 (Z.shiftr number 8) in
  let byte2 := CInt.to_uint8 (Z.land number 255) in
  EEPROM_write address byte1 ;;
  EEPROM_write (CInt.to_int (address + 1)) byte2.

Definition saveSpeedConfiguration : Proc unit :=
  t <- gets stepperTrackingSpeed ;;
  writeIntIntoEEPROM stepper_speed_address t ;;
  h <- gets homeSpeed ;;
  writeIntIntoEEPROM home_speed_address h ;;
  modify (fun m => set_initialStepperTrackingSpeed (stepperTrackingSpeed m) m) ;;
  modify (fun m => set_initialHomeSpeed (homeSpeed m) m).

(** [(EEPROM.read(a) << 8) | EEPROM.read(a + 1)], before its conversion
    to [int]: the stored 16-bit word. *)
Definition readWord (address : Z) : Proc Z :=
  hi <- EEPROM_read address ;;
  lo <- EEPROM_read (CInt.to_int (address + 1)) ;;
  ret (Z.lor (Z.shiftl hi 8) lo).

(** [x != 0xFFFF] for an [int] x: 0xFFFF does not fit [int], the literal is
    an [unsigned int] and x is converted to [unsigned int]. *)
Definition is_0xFFFF (x : Z) : bool := CInt.to_uint x =? 65535.

Definition readSpeedConfigFromEeprom : Proc unit :=
  w1 <- readWord stepper_speed_address ;;
  let trackingSpeedValue := CInt.to_int w1 in
  w2 <- readWord home_speed_address ;;
  let homeSpeedValue := CInt.to_int w2 in
  (if negb (is_0xFFFF trackingSpeedValue) && negb (is_0xFFFF homeSpeedValue) then
     modify (set_stepperTrackingSpeed trackingSpeedValue) ;;
     modify (set_homeSpeed homeSpeedValue)
   else
     modify (set_stepperTrackingSpeed 1) ;;
     modify (set_homeSpeed 100)) ;;
  modify (fun m => set_initialStepperTrackingSpeed (stepperTrackingSpeed m) m) ;;
  modify (fun m => set_initialHomeSpeed (homeSpeed m) m).

Definition encoderPressed : Proc unit :=
  em <- gets editMode ;;
  (if em then
     modify (set_editMode false)
   else
     page <- gets currentPageIndex ;;
     if page =? 1 then
       modify (set_editMode true) ;;
       modify (set_motorRunning 0)
     else if page =? 2 then
       modify (set_editMode true) ;;
       modify (set_motorRunning 0)
     else if page =? 3 then
       startStopButtonPressed
     else if page =? 4 then
       returnHomePressed
     else if page =? 5 then
       saveSpeedConfiguration ;;
       modify (set_currentPageIndex 0)
     else ret tt) ;;
  updateMainScreen.

(** Clamping of an edited speed, as written in both edit branches. *)
Definition clampSpeed (v : Z) : Z :=
  if v <? 1 then 1 else if 1000 <? v then 1000 else v.

Definition encoderRotated (i : Inputs) : Proc unit :=
  dtState <- digitalRead i DT_PIN ;;
  let change := if dtState then 1 else -1 in
  em <- gets editMode ;;
  (if em then
     page <- gets currentPageIndex ;;
     if page =? 1 then
       modify (fun m => set_stepperTrackingSpeed
                          (CInt.to_int (stepperTrackingSpeed m + change)) m) ;;
       modify (fun m => set_stepperTrackingSpeed
                          (clampSpeed (stepperTrackingSpeed m)) m)
     else if page =? 2 then
       modify (fun m => set_homeSpeed (CInt.to_int (homeSpeed m + change)) m) ;;
       modify (fun m => set_homeSpeed (clampSpeed (homeSpeed m)) m)
     else ret tt
   else
     modify (fun m => set_currentPageIndex
                        (CInt.to_uint8 (currentPageIndex m + change)) m) ;;
     dirty <- gets isDirty ;;
     let maxPage := if dirty then 5 else 4 in
     page <- gets currentPageIndex ;;
     if page <? 1 then
       modify (set_currentPageIndex (CInt.to_uint8 maxPage))
     else if maxPage <? page then
       modify (set_currentPageIndex 1)
     else ret tt) ;;
  updateMainScreen.

Definition runTheStepper (i : Inputs) : Proc unit :=
  running <- gets motorRunning ;;
  if negb (running =? 0) then
    atEnd <- (if 0 <? running
              then (l <- digitalRead i END_SWITCH_PIN ;; ret (negb l))
              else ret false) ;;
    if atEnd then
      modify (set_motorRunning 0) ;;
      updateMainScreen
    else
      atHome <- (if running <? 0
                 then (l <- digitalRead i HOME_SWITCH_PIN ;; ret (negb l))
                 else ret false) ;;
      if atHome then
        modify (set_motorRunning 0) ;;
        updateMainScreen
      else
        call StepperRunSpeed
  else ret tt.

(** [setup], once the display has answered ([display.begin] failing stops
    the sketch in an endless loop before anything else happens). *)
Definition setup : Proc unit :=
  readSpeedConfigFromEeprom ;;
  call (StepperSetMaxSpeed 1000) ;;
  call (StepperSetAcceleration 20) ;;
  call (StepperSetSpeed 100) ;;
  updateMainScreen.

Definition loop (i : Inputs) : Proc unit :=
  when (switchFell i) encoderPressed ;;
  when (clkFell i) (encoderRotated i) ;;
  em <- gets editMode ;;
  if em then
    last <- gets lastUpdateEditModeScreen ;;
    if checkTimeoutExpired (millisCheck i) last 300 then
      modify (fun m => set_editModeBlinkDark (negb (editModeBlinkDark m)) m) ;;
      modify (set_lastUpdateEditModeScreen (CInt.to_ulong (millisStore i))) ;;
      updateMainScreen
    else ret tt
  else
    runTheStepper i.

(** ** Runs of the sketch *)

(** Consecutive iterations of [loop], one per sampled input. *)
Fixpoint iterations (inputs : list Inputs) : Proc unit :=
  match inputs with
  | [] => ret tt
  | i :: rest => loop i ;; iterations rest
  end.

(** The states the sketch can be in at the top of [loop]. *)
Inductive reachable : Machine -> Prop :=
| reach_setup (e : Z -> Z) :
    reachable (state_after setup (powerOn e))
| reach_loop (m : Machine) (i : Inputs) :
    reachable m -> reachable (state_after (loop i) m).

(** The run mode the value of [motorRunning] stands for ([runTheStepper]
    tells forward from backward by the sign). *)
Inductive MotorState : Type := Idle | Tracking | Homing.

Definition motorState (m : Machine) : MotorState :=
  if motorRunning m =? 0 then Idle
  else if 0 <? motorRunning m then Tracking
  else Homing.

(** Selectors over the call log. *)
Definition isRunSpeed (c : Call) : bool :=
  match c with StepperRunSpeed => true | _ => false end.

Definition isLimitRead (c : Call) : bool :=
  match c with
  | DigitalRead HOME_SWITCH_PIN | DigitalRead END_SWITCH_PIN => true
  | _ => false
  end.

Definition steppingCalls (cs : list Call) : nat := length (filter isRunSpeed cs).

Definition limitReads (cs : list Call) : nat := length (filter isLimitRead cs).

(** Sample inputs: all lines idle (pulled up), a button press, a detent of
    the encoder. *)
Definition pulledUp : Pin -> bool := fun _ => true.

Definition quiet (now : Z) : Inputs := mkInputs false false pulledUp now now.

Definition press (now : Z) : Inputs := mkInputs true false pulledUp now now.

Definition turn (clockwise : bool) (now : Z) : Inputs :=
  mkInputs false true
    (fun p => match p with DT_PIN => clockwise | _ => true end) now now.

(** The state [setup] leaves on a board whose EEPROM was never written. *)
Definition firstBoot : Machine := state_after setup (powerOn erased).

(** ** Vocabulary of the properties *)

(** The 16-bit word held by the two EEPROM cells at an address. *)
Definition storedWord (m : Machine) (address : Z) : Z :=
  value_of (readWord address) m.

(** The two stored words, to state facts about either of them. *)
Inductive SpeedWord : Type := TrackingWord | HomeWord.

Definition addressOf (f : SpeedWord) : Z :=
  match f with
  | TrackingWord => stepper_speed_address
  | HomeWord => home_speed_address
  end.

Definition otherWord (f : SpeedWord) : SpeedWord :=
  match f with TrackingWord => HomeWord | HomeWord => TrackingWord end.

Definition loadedSpeed (f : SpeedWord) (m : Machine) : Z :=
  match f with
  | TrackingWord => stepperTrackingSpeed m
  | HomeWord => homeSpeed m
  end.

(** [loop] in two phases.  The event phase: the two debounced events are
    handled, the button first. *)
Definition dispatch (i : Inputs) : Proc unit :=
  when (switchFell i) encoderPressed ;;
  when (clkFell i) (encoderRotated i).

(** The mode phase, in edit mode: the blink timer (in normal mode it is
    [runTheStepper]). *)
Definition editBlink (i : Inputs) : Proc unit :=
  last <- gets lastUpdateEditModeScreen ;;
  if checkTimeoutExpired (millisCheck i) last 300 then
    modify (fun m => set_editModeBlinkDark (negb (editModeBlinkDark m)) m) ;;
    modify (set_lastUpdateEditModeScreen (CInt.to_ulong (millisStore i))) ;;
    updateMainScreen
  else ret tt.

(** Active-low inputs: a switch is active when its pin reads LOW. *)
Definition switchActive (i : Inputs) (p : Pin) : bool := negb (level i p).

(** The limit switch that ends the current motion is active. *)
Definition limitHit (i : Inputs) (m : Machine) : bool :=
  match motorState m with
  | Idle => false
  | Tracking => switchActive i END_SWITCH_PIN
  | Homing => switchActive i HOME_SWITCH_PIN
  end.

(** In states the sketch can reach, edit mode implies an idle motor and a
    speed page. *)
Definition editInvariant (m : Machine) : Prop :=
  editMode m = true ->
  motorRunning m = 0 /\ (currentPageIndex m = 1 \/ currentPageIndex m = 2).

(** The states passed through by consecutive encoder detents, one per
    sampled input. *)
Fixpoint rotationStates (inputs : list Inputs) (m : Machine) : list Machine :=
  match inputs with
  | [] => []
  | i :: rest =>
      let m' := state_after (encoderRotated i) m in
      m' :: rotationStates rest m'
  end.

Definition speedsInRange (m : Machine) : Prop :=
  1 <= stepperTrackingSpeed m <= 1000 /\ 1 <= homeSpeed m <= 1000.

(** ** Vocabulary of the further properties *)

Definition pageInvariant (m : Machine) : Prop :=
  (1 <= currentPageIndex m <= 4)
  \/ (currentPageIndex m = 5 /\ isDirty m = true)
  \/ (currentPageIndex m = 0 /\ isDirty m = false).

Definition motorInvariant (m : Machine) : Prop :=
  motorRunning m = 0 \/ motorRunning m = 1 \/ motorRunning m = -1.

(** Both working speeds and both saved speeds lie in [1,1000]. *)
Definition configInRange (m : Machine) : Prop :=
  speedsInRange m
  /\ 1 <= initialStepperTrackingSpeed m <= 1000
  /\ 1 <= initialHomeSpeed m <= 1000.

(** An EEPROM content from which [setup] loads speeds in [1,1000]: a
    sentinel in either word, or both words in range. *)
Definition usableStore (e : Z -> Z) : Prop :=
  let w1 := storedWord (powerOn e) stepper_speed_address in
  let w2 := storedWord (powerOn e) home_speed_address in
  w1 = 65535 \/ w2 = 65535 \/ (1 <= w1 <= 1000 /\ 1 <= w2 <= 1000).

(** The EEPROM content and the saved snapshot are the same in two states. *)
Definition storeKept (m m' : Machine) : Prop :=
  (forall a, EEPROM m' a = EEPROM m a)
  /\ initialStepperTrackingSpeed m' = initialStepperTrackingSpeed m
  /\ initialHomeSpeed m' = initialHomeSpeed m.

(** The EEPROM cells other than the four of the two speed words are the
    same in two states. *)
Definition otherCellsKept (m m' : Machine) : Prop :=
  forall a, a < 0 \/ 3 < a -> EEPROM m' a = EEPROM m a.

(** An [int] whose 16-bit pattern is not the erase sentinel. *)
Definition storable (s : Z) : Prop := -32768 <= s <= 32767 /\ s <> -1.

(** The speed last given to [stepper.setSpeed], over a call log. *)
Definition commanded (s : option Z) (cs : list Call) : option Z :=
  fold_left (fun acc c => match c with StepperSetSpeed v => Some v | _ => acc end)
            cs s.

(** The screen last drawn, over a call log. *)
Definition drawn (s : option Screen) (cs : list Call) : option Screen :=
  fold_left (fun acc c => match c with Display v => Some v | _ => acc end)
            cs s.

(** A running motor runs at the speed of its direction, and editing keeps
    the motor idle. *)
Definition speedInvariant (m : Machine) (s : option Z) : Prop :=
  (editMode m = true -> motorRunning m = 0)
  /\ (motorRunning m = 0
      \/ (motorRunning m = 1 /\ s = Some (stepperTrackingSpeed m))
      \/ (motorRunning m = -1 /\ s = Some (CInt.to_int (- homeSpeed m)))).

(** A property of a state and of a summary of the call log that each piece
    of a loop iteration maintains is maintained by runs. *)
Definition maintains {S : Type} (summary : S -> list Call -> S)
  (P : Machine -> S -> Prop) (p : Proc unit) : Prop :=
  forall m s, P m s -> P (state_after p m) (summary s (calls_of p m)).

(** The screen last drawn is the screen of the state. *)
Definition screenInvariant (m : Machine) (s : option Screen) : Prop :=
  s = Some (screenOf m).

(** The page on which a speed is edited. *)
Definition speedPage (f : SpeedWord) : Z :=
  match f with TrackingWord => 1 | HomeWord => 2 end.

(** Number of decimal digits of a magnitude that fits an [int]. *)
Definition decimalDigits (v : Z) : Z :=
  if v <? 10 then 1
  else if v <? 100 then 2
  else if v <? 1000 then 3
  else if v <? 10000 then 4
  else 5.

(** Number of characters [sprintf] writes for a [%d] conversion of an [int]
    with a minimum field width (0 for none), before the terminating NUL:
    the digits, a minus sign for a negative value, padded to the width. *)
Definition printedLength (width v : Z) : Z :=
  Z.max width (decimalDigits (Z.abs v) + (if v <? 0 then 1 else 0)).

(** The two [sprintf] calls of [updateMainScreen], "%2d" of the tracking
    speed and "%0d" of the home speed, stay inside their [char[5]]
    buffers, terminator included. *)
Definition textsFit (m : Machine) : bool :=
  (printedLength 2 (stepperTrackingSpeed m) + 1 <=? 5)
  && (printedLength 0 (homeSpeed m) + 1 <=? 5).

(** ** The first revision of the sketch

    One editable speed, three menu pages (1 speed, 2 start, 3 return home),
    no limit switches and no EEPROM.  It is small enough to be written in
    direct state-passing style: a handler returns the new state and the
    calls it issued. *)

Module Legacy.

Definition HOME_MOTOR_SPEED : Z := 500.

Record Screen : Type := mkScreen {
  shownSpeed : Z;           (* value printed after "Speed:" *)
  blanked : bool;           (* edit mode: the value is hidden by the blink *)
  underlined : option Z     (* normal mode: page whose marker is drawn *)
}.

Inductive Call : Type :=
| DigitalRead (p : Pin)
| StepperSetMaxSpeed (v : Z)
| StepperSetSpeed (v : Z)
| StepperSetAcceleration (a : Z)
| StepperRunSpeed
| Display (s : Screen).

Record Machine : Type := mkMachine {
  editMode : bool;
  lastUpdateEditModeScreen : Z;
  editModeBlinkDark : bool;
  stepperSpeed : Z;
  motorRunning : bool;
  currentPageIndex : Z
}.

(** The globals as their initialisers leave them ([currentPageIndex] has
    none and is zero-initialised). *)
Definition powerOn : Machine :=
  {| editMode := false;
     lastUpdateEditModeScreen := 0;
     editModeBlinkDark := false;
     stepperSpeed := 1;
     motorRunning := false;
     currentPageIndex := 0 |}.

Definition screenOf (m : Machine) : Screen :=
  {| shownSpeed := stepperSpeed m;
     blanked := editMode m && editModeBlinkDark m && (currentPageIndex m =? 1);
     underlined :=
       if editMode m then None
       else if (1 <=? currentPageIndex m) && (currentPageIndex m <=? 3)
            then Some (currentPageIndex m)
       else None |}.

Definition updateMainScreen (m : Machine) : list Call := [Display (screenOf m)].

Definition startStopButtonPressed (m : Machine) : Machine * list Call :=
  (mkMachine (editMode m) (lastUpdateEditModeScreen m) (editModeBlinkDark m)
     (stepperSpeed m) (negb (motorRunning m)) (currentPageIndex m),
   []).

Definition returnHomePressed (m : Machine) : Machine * list Call :=
  (mkMachine (editMode m) (lastUpdateEditModeScreen m) (editModeBlinkDark m)
     (stepperSpeed m) true (currentPageIndex m),
   [StepperSetSpeed (CInt.to_int (- HOME_MOTOR_SPEED));
    StepperSetAcceleration 20;
    StepperRunSpeed]).

Definition encoderPressed (m : Machine) : Machine * list Call :=
  if editMode m then
    (mkMachine false (lastUpdateEditModeScreen m) (editModeBlinkDark m)
       (stepperSpeed m) (motorRunning m) (currentPageIndex m),
     [])
  else
    let '(m', calls) :=
      if currentPageIndex m =? 1 then
        (mkMachine true (lastUpdateEditModeScreen m) (editModeBlinkDark m)
           (stepperSpeed m) (motorRunning m) (currentPageIndex m),
         [])
      else if currentPageIndex m =? 2 then startStopButtonPressed m
      else if currentPageIndex m =? 3 then returnHomePressed m
      else (m, []) in
    (m', calls ++ updateMainScreen m').

(** [uint8_t change]: the anticlockwise value -1 is stored as 255. *)
Definition changeOf (dtState : bool) : Z :=
  if dtState then 1 else CInt.to_uint8 (-1).

Definition encoderRotated (i : Inputs) (m : Machine) : Machine * list Call :=
  let change := changeOf (level i DT_PIN) in
  let m' :=
    if editMode m then
      if currentPageIndex m =? 1 then
        mkMachine (editMode m) (lastUpdateEditModeScreen m) (editModeBlinkDark m)
          (clampSpeed (CInt.to_int (stepperSpeed m + change)))
          (motorRunning m) (currentPageIndex m)
      else m
    else
      let page := CInt.to_uint8 (currentPageIndex m + change) in
      mkMachine (editMode m) (lastUpdateEditModeScreen m) (editModeBlinkDark m)
        (stepperSpeed m) (motorRunning m)
        (if page <? 1 then 3 else if 3 <? page then 1 else page) in
  (m', DigitalRead DT_PIN :: updateMainScreen m').

Definition runTheStepper (m : Machine) : Machine * list Call :=
  (m, if motorRunning m then [StepperRunSpeed] else []).

Definition setup : Machine * list Call :=
  (powerOn,
   [StepperSetMaxSpeed 10; StepperSetAcceleration 32000; StepperSetSpeed 1]).

Definition loop (i : Inputs) (m : Machine) : Machine * list Call :=
  let '(m1, c1) := if switchFell i then encoderPressed m else (m, []) in
  let '(m2, c2) := if clkFell i then encoderRotated i m1 else (m1, []) in
  let '(m3, c3) :=
    if editMode m2 then
      if checkTimeoutExpired (millisCheck i) (lastUpdateEditModeScreen m2) 300 then
        let m' :=
          mkMachine (editMode m2) (CInt.to_ulong (millisStore i))
            (negb (editModeBlinkDark m2)) (stepperSpeed m2) (motorRunning m2)
            (currentPageIndex m2) in
        (m', updateMainScreen m')
      else (m2, [])
    else runTheStepper m2 in
  (m3, c1 ++ c2 ++ c3).

(** Consecutive loop iterations after [setup]. *)
Fixpoint iterations (inputs : list Inputs) (m : Machine) : Machine * list Call :=
  match inputs with
  | [] => (m, [])
  | i :: rest =>
      let '(m1, c1) := loop i m in
      let '(m2, c2) := iterations rest m1 in
      (m2, c1 ++ c2)
  end.

Definition run (inputs : list Inputs) : Machine * list Call :=
  let '(m0, c0) := setup in
  let '(m, c) := iterations inputs m0 in
  (m, c0 ++ c).

(** The speed last given to [stepper.setSpeed], over a call log. *)
Definition commanded (s : option Z) (cs : list Call) : option Z :=
  fold_left (fun acc c => match c with StepperSetSpeed v => Some v | _ => acc end)
            cs s.

End Legacy.

(** ** Proof support *)

Ltac proc_step :=
  cbv beta iota zeta delta
    [state_after calls_of value_of fst snd app
     ret bind gets modify call when
     digitalRead EEPROM_read EEPROM_write updateMainScreen
     startStopButtonPressed returnHomePressed writeIntIntoEEPROM
     saveSpeedConfiguration readWord readSpeedConfigFromEeprom
     encoderPressed encoderRotated runTheStepper setup loop
     stepper_speed_address home_speed_address isDirty
     set_editMode set_lastUpdateEditModeScreen set_editModeBlinkDark
     set_stepperTrackingSpeed set_homeSpeed set_initialStepperTrackingSpeed
     set_initialHomeSpeed set_motorRunning set_currentPageIndex set_EEPROM
     editMode lastUpdateEditModeScreen editModeBlinkDark
     stepperTrackingSpeed homeSpeed initialStepperTrackingSpeed
     initialHomeSpeed motorRunning currentPageIndex EEPROM
     steppingCalls limitReads filter length isRunSpeed isLimitRead
     negb andb orb].

Ltac bool_hyps :=
  repeat match goal with
  | H : (_ =? _) = true |- _ => apply Z.eqb_eq in H
  | H : (_ =? _) = false |- _ => apply Z.eqb_neq in H
  | H : (_ <? _) = true |- _ => apply Z.ltb_lt in H
  | H : (_ <? _) = false |- _ => apply Z.ltb_ge in H
  | H : (_ <=? _) = true |- _ => apply Z.leb_le in H
  | H : (_ <=? _) = false |- _ => apply Z.leb_gt in H
  end.

Ltac split_if :=
  match goal with
  | |- context [if ?b then _ else _] =>
      lazymatch b with
      | context [if _ then _ else _] => fail
      | _ => destruct b eqn:?
      end
  end.

Ltac proc_cases := proc_step; repeat (split_if; proc_step).

(** Evaluates the address arithmetic and the address tests of the EEPROM
    cells, which are closed terms. *)
Ltac cells :=
  cbv [addressOf otherWord stepper_speed_address home_speed_address];
  change (CInt.to_int (0 + 1)) with 1;
  change (CInt.to_int (2 + 1)) with 3;
  repeat match goal with
  | |- context [?a =? ?b] =>
      let r := eval vm_compute in (a =? b) in
      lazymatch r with
      | true => change (a =? b) with true
      | false => change (a =? b) with false
      end
  end;
  cbv iota.

(** ** Sequencing, and the two phases of a loop iteration *)

Lemma state_after_bind {A B : Type} (p : Proc A) (k : A -> Proc B) (m : Machine) :
  state_after (bind p k) m = state_after (k (value_of p m)) (state_after p m).
Proof.
  unfold state_after, value_of, bind.
  destruct (p m) as [[a m1] c1]. cbn [fst snd].
  destruct (k a m1) as [[b m2] c2]. reflexivity.
Qed.

Lemma calls_of_bind {A B : Type} (p : Proc A) (k : A -> Proc B) (m : Machine) :
  calls_of (bind p k) m
  = calls_of p m ++ calls_of (k (value_of p m)) (state_after p m).
Proof.
  unfold calls_of, state_after, value_of, bind.
  destruct (p m) as [[a m1] c1]. cbn [fst snd].
  destruct (k a m1) as [[b m2] c2]. reflexivity.
Qed.

Lemma bind_assoc {A B C : Type}
  (p : Proc A) (k : A -> Proc B) (h : B -> Proc C) (m : Machine) :
  bind (bind p k) h m = bind p (fun a => bind (k a) h) m.
Proof.
  unfold bind.
  destruct (p m) as [[a m1] c1].
  destruct (k a m1) as [[b m2] c2].
  destruct (h b m2) as [[c m3] c3].
  rewrite app_assoc. reflexivity.
Qed.

Lemma loop_phases (i : Inputs) (m : Machine) :
  loop i m =
  (dispatch i ;;
   em <- gets editMode ;;
   if em then editBlink i else runTheStepper i) m.
Proof.
  unfold dispatch. rewrite bind_assoc. reflexivity.
Qed.

Lemma loop_state (i : Inputs) (m : Machine) :
  state_after (loop i) m =
  let m1 := state_after (dispatch i) m in
  if editMode m1 then state_after (editBlink i) m1
  else state_after (runTheStepper i) m1.
Proof.
  unfold state_after at 1. rewrite loop_phases.
  unfold bind, gets, state_after.
  destruct (dispatch i m) as [[[] m1] c1]. cbn [fst snd].
  destruct (editMode m1).
  - destruct (editBlink i m1) as [[[] m2] c2]. reflexivity.
  - destruct (runTheStepper i m1) as [[[] m2] c2]. reflexivity.
Qed.

Lemma loop_calls (i : Inputs) (m : Machine) :
  calls_of (loop i) m =
  let m1 := state_after (dispatch i) m in
  calls_of (dispatch i) m ++
  (if editMode m1 then calls_of (editBlink i) m1
   else calls_of (runTheStepper i) m1).
Proof.
  unfold calls_of at 1. rewrite loop_phases.
  unfold bind, gets, state_after, calls_of.
  destruct (dispatch i m) as [[[] m1] c1]. cbn [fst snd].
  destruct (editMode m1).
  - destruct (editBlink i m1) as [[[] m2] c2]. reflexivity.
  - destruct (runTheStepper i m1) as [[[] m2] c2]. reflexivity.
Qed.

(** Every run of loop iterations from a reachable state ends in one. *)
Lemma reachable_iterations (inputs : list Inputs) (m : Machine) :
  reachable m -> reachable (state_after (iterations inputs) m).
Proof.
  revert m. induction inputs as [| i rest IH]; intros m Hm.
  - exact Hm.
  - cbn [iterations]. rewrite state_after_bind.
    apply IH, reach_loop, Hm.
Qed.

(** ** The dirty flag and Save *)

Lemma isDirty_true_iff (m : Machine) :
  isDirty m = true <->
  stepperTrackingSpeed m <> initialStepperTrackingSpeed m
  \/ homeSpeed m <> initialHomeSpeed m.
Proof.
  unfold isDirty.
  rewrite orb_true_iff, !negb_true_iff, !Z.eqb_neq.
  reflexivity.
Qed.

Lemma isDirty_false_iff (m : Machine) :
  isDirty m = false <->
  stepperTrackingSpeed m = initialStepperTrackingSpeed m
  /\ homeSpeed m = initialHomeSpeed m.
Proof.
  unfold isDirty.
  rewrite orb_false_iff, !negb_false_iff, !Z.eqb_eq.
  reflexivity.
Qed.

(** C4: the dirty condition holds exactly when a working speed differs from
    its saved snapshot, and [saveSpeedConfiguration] leaves the
    configuration clean: both snapshot fields then equal the (unchanged)
    working speeds. *)
Theorem dirty_iff_differs_and_save_cleans (m : Machine) :
  (isDirty m = true <->
     stepperTrackingSpeed m <> initialStepperTrackingSpeed m
     \/ homeSpeed m <> initialHomeSpeed m)
  /\ isDirty (state_after saveSpeedConfiguration m) = false
  /\ initialStepperTrackingSpeed (state_after saveSpeedConfiguration m)
     = stepperTrackingSpeed m
  /\ initialHomeSpeed (state_after saveSpeedConfiguration m) = homeSpeed m
  /\ stepperTrackingSpeed (state_after saveSpeedConfiguration m)
     = stepperTrackingSpeed m
  /\ homeSpeed (state_after saveSpeedConfiguration m) = homeSpeed m.
Proof.
  split; [apply isDirty_true_iff|].
  split.
  - apply isDirty_false_iff. destruct m. proc_step. split; reflexivity.
  - destruct m. proc_step. repeat split; reflexivity.
Qed.

(** ** The stored configuration *)

Lemma to_uint8_range (z : Z) : 0 <= CInt.to_uint8 z < 256.
Proof. unfold CInt.to_uint8. apply Z.mod_pos_bound. lia. Qed.

Lemma word_of_bytes (hi lo : Z) :
  0 <= lo < 256 ->
  Z.lor (Z.shiftl hi 8) lo = hi * 256 + lo.
Proof.
  intros Hlo.
  rewrite Z.shiftl_mul_pow2 by lia.
  assert (Hdisjoint : Z.land (hi * 2 ^ 8) lo = 0).
  { apply Z.bits_inj'; intros n Hn.
    rewrite Z.land_spec, Z.bits_0.
    destruct (Z.lt_ge_cases n 8) as [Hlow | Hhigh].
    - rewrite Z.mul_pow2_bits_low by assumption. reflexivity.
    - rewrite <- (Z.mod_small lo (2 ^ 8)) by (change (2 ^ 8) with 256; lia).
      rewrite Z.mod_pow2_bits_high by lia.
      apply andb_false_r. }
  rewrite <- Z.lxor_lor, <- Z.add_nocarry_lxor by assumption.
  reflexivity.
Qed.

Lemma storedWord_bytes (m : Machine) (address : Z) :
  storedWord m address =
  CInt.to_uint8 (EEPROM m address) * 256
  + CInt.to_uint8 (EEPROM m (CInt.to_int (address + 1))).
Proof.
  unfold storedWord. destruct m. proc_step.
  apply word_of_bytes, to_uint8_range.
Qed.

Lemma storedWord_range (m : Machine) (address : Z) :
  0 <= storedWord m address <= 65535.
Proof.
  rewrite storedWord_bytes.
  pose proof (to_uint8_range (EEPROM m address)).
  pose proof (to_uint8_range (EEPROM m (CInt.to_int (address + 1)))).
  lia.
Qed.

Lemma to_uint_to_int (w : Z) : CInt.to_uint (CInt.to_int w) = CInt.to_uint w.
Proof.
  unfold CInt.to_uint, CInt.to_int.
  Z.div_mod_to_equations. lia.
Qed.

Lemma is_0xFFFF_to_int (w : Z) :
  0 <= w <= 65535 -> is_0xFFFF (CInt.to_int w) = (w =? 65535).
Proof.
  intros Hw. unfold is_0xFFFF.
  rewrite to_uint_to_int. unfold CInt.to_uint.
  rewrite Z.mod_small by lia. reflexivity.
Qed.

Lemma to_int_small (z : Z) : -32768 <= z <= 32767 -> CInt.to_int z = z.
Proof.
  intros Hz. unfold CInt.to_int. rewrite Z.mod_small by lia. lia.
Qed.

Lemma to_int_range (z : Z) : -32768 <= CInt.to_int z <= 32767.
Proof.
  unfold CInt.to_int.
  pose proof (Z.mod_pos_bound (z + 32768) 65536). lia.
Qed.

(** What [readSpeedConfigFromEeprom] leaves in the four speed variables. *)
Lemma readSpeedConfig_result (m : Machine) :
  let w1 := storedWord m stepper_speed_address in
  let w2 := storedWord m home_speed_address in
  let m' := state_after readSpeedConfigFromEeprom m in
  let loaded :=
    if (w1 =? 65535) || (w2 =? 65535) then (1, 100)
    else (CInt.to_int w1, CInt.to_int w2) in
  stepperTrackingSpeed m' = fst loaded
  /\ homeSpeed m' = snd loaded
  /\ initialStepperTrackingSpeed m' = fst loaded
  /\ initialHomeSpeed m' = snd loaded.
Proof.
  intros w1 w2 m' loaded.
  pose proof (is_0xFFFF_to_int w1 (storedWord_range m _)) as H1.
  pose proof (is_0xFFFF_to_int w2 (storedWord_range m _)) as H2.
  subst m' loaded. unfold storedWord in *. subst w1 w2.
  destruct m. revert H1 H2. proc_step. intros -> ->.
  repeat split_if; proc_step; repeat split; reflexivity.
Qed.

Lemma to_int_in_speed_range (w : Z) :
  0 <= w <= 65535 -> (1 <= CInt.to_int w <= 1000 <-> 1 <= w <= 1000).
Proof.
  intros Hw. unfold CInt.to_int.
  Z.div_mod_to_equations. lia.
Qed.

(** C2 (amended): after [readSpeedConfigFromEeprom], if either stored word
    is 0xFFFF both working speeds are the defaults (1 and 100); otherwise
    they are the stored words as read, converted to [int], with no
    clamping, so a working speed lies in [1,1000] exactly when a sentinel
    was read or the stored word itself lies in [1,1000]; and the saved
    snapshot equals the working speeds. *)
Theorem load_defaults_or_stored_words (m : Machine) :
  let w1 := storedWord m stepper_speed_address in
  let w2 := storedWord m home_speed_address in
  let m' := state_after readSpeedConfigFromEeprom m in
  (stepperTrackingSpeed m', homeSpeed m') =
    (if (w1 =? 65535) || (w2 =? 65535) then (1, 100)
     else (CInt.to_int w1, CInt.to_int w2))
  /\ (1 <= stepperTrackingSpeed m' <= 1000
      <-> w1 = 65535 \/ w2 = 65535 \/ 1 <= w1 <= 1000)
  /\ (1 <= homeSpeed m' <= 1000
      <-> w1 = 65535 \/ w2 = 65535 \/ 1 <= w2 <= 1000)
  /\ initialStepperTrackingSpeed m' = stepperTrackingSpeed m'
  /\ initialHomeSpeed m' = homeSpeed m'.
Proof.
  intros w1 w2 m'.
  destruct (readSpeedConfig_result m) as (Ht & Hh & Hit & Hih).
  fold w1 w2 m' in Ht, Hh, Hit, Hih.
  pose proof (storedWord_range m stepper_speed_address) as R1.
  pose proof (storedWord_range m home_speed_address) as R2.
  fold w1 in R1. fold w2 in R2.
  rewrite Hit, Hih, Ht, Hh.
  destruct (Z.eqb_spec w1 65535) as [E1 | N1];
    [| destruct (Z.eqb_spec w2 65535) as [E2 | N2]]; cbn [orb fst snd].
  - repeat split; try reflexivity; intros; lia.
  - repeat split; try reflexivity; intros; lia.
  - pose proof (to_int_in_speed_range w1 R1).
    pose proof (to_int_in_speed_range w2 R2).
    repeat split; try reflexivity; intros; try tauto; lia.
Qed.

(** C2 as stated fails: with a zeroed EEPROM neither word is the sentinel
    and the tracking speed is loaded as 0, outside [1,1000]. *)
Lemma load_does_not_clamp :
  let m' := state_after readSpeedConfigFromEeprom (powerOn (fun _ => 0)) in
  storedWord (powerOn (fun _ => 0)) stepper_speed_address <> 65535
  /\ storedWord (powerOn (fun _ => 0)) home_speed_address <> 65535
  /\ stepperTrackingSpeed m' = 0
  /\ ~ (1 <= stepperTrackingSpeed m' <= 1000).
Proof.
  vm_compute. repeat split; try discriminate.
  intros [H _]. apply H. reflexivity.
Qed.

(** *** Writing a word and reading it back *)

Lemma split_int (n : Z) :
  CInt.to_uint8 (CInt.to_uint8 (Z.shiftr n 8)) * 256
  + CInt.to_uint8 (CInt.to_uint8 (Z.land n 255)) = CInt.to_uint n.
Proof.
  unfold CInt.to_uint8, CInt.to_uint.
  rewrite Z.shiftr_div_pow2 by lia.
  change 255 with (Z.ones 8). rewrite Z.land_ones by lia.
  change (2 ^ 8) with 256.
  Z.div_mod_to_equations. lia.
Qed.


Lemma to_uint8_idem (z : Z) : CInt.to_uint8 (CInt.to_uint8 z) = CInt.to_uint8 z.
Proof. unfold CInt.to_uint8. apply Z.mod_mod. lia. Qed.

Lemma storedWord_written (f : SpeedWord) (n : Z) (m : Machine) :
  storedWord (state_after (writeIntIntoEEPROM (addressOf f) n) m) (addressOf f)
  = CInt.to_uint n.
Proof.
  rewrite storedWord_bytes, <- split_int.
  destruct f, m; proc_step; cells; rewrite !to_uint8_idem; reflexivity.
Qed.

Lemma storedWord_kept (f : SpeedWord) (n : Z) (m : Machine) :
  storedWord (state_after (writeIntIntoEEPROM (addressOf f) n) m)
             (addressOf (otherWord f))
  = storedWord m (addressOf (otherWord f)).
Proof.
  rewrite !storedWord_bytes.
  destruct f, m; proc_step; cells; reflexivity.
Qed.

(** C9: for a 16-bit value v other than 0xFFFF, writing v (as an [int])
    with [writeIntIntoEEPROM] at one of the two word addresses leaves v as
    the stored word, and when the other stored word is not 0xFFFF either,
    [readSpeedConfigFromEeprom] loads it back: the speed variable holds the
    same [int] that was written, whose 16-bit pattern is v. *)
Theorem eeprom_word_round_trip (f : SpeedWord) (v : Z) (m : Machine) :
  0 <= v <= 65535 ->
  v <> 65535 ->
  storedWord m (addressOf (otherWord f)) <> 65535 ->
  let m1 := state_after (writeIntIntoEEPROM (addressOf f) (CInt.to_int v)) m in
  let m2 := state_after readSpeedConfigFromEeprom m1 in
  storedWord m1 (addressOf f) = v
  /\ loadedSpeed f m2 = CInt.to_int v
  /\ CInt.to_uint (loadedSpeed f m2) = v.
Proof.
  intros Hv Hne Hother m1 m2.
  assert (Hback : storedWord m1 (addressOf f) = v).
  { subst m1. rewrite storedWord_written, to_uint_to_int.
    unfold CInt.to_uint. apply Z.mod_small. lia. }
  assert (Hkept : storedWord m1 (addressOf (otherWord f)) <> 65535).
  { subst m1. rewrite storedWord_kept. exact Hother. }
  assert (Hload : loadedSpeed f m2 = CInt.to_int v).
  { destruct (readSpeedConfig_result m1) as (Ht & Hh & _).
    fold m2 in Ht, Hh.
    apply Z.eqb_neq in Hne, Hkept.
    destruct f; cbn [loadedSpeed addressOf otherWord] in *.
    - rewrite Ht, Hback, Hne, Hkept. reflexivity.
    - rewrite Hh, Hback, Hne, Hkept. reflexivity. }
  split; [exact Hback|]. split; [exact Hload|].
  rewrite Hload, to_uint_to_int. unfold CInt.to_uint. apply Z.mod_small. lia.
Qed.

(** C9 at work: 725 written as the tracking speed over a zeroed EEPROM. *)
Lemma eeprom_word_round_trip_witness :
  let m := powerOn (fun _ => 0) in
  let m1 := state_after (writeIntIntoEEPROM (addressOf TrackingWord) (CInt.to_int 725)) m in
  let m2 := state_after readSpeedConfigFromEeprom m1 in
  storedWord m1 (addressOf TrackingWord) = 725
  /\ loadedSpeed TrackingWord m2 = CInt.to_int 725
  /\ CInt.to_uint (loadedSpeed TrackingWord m2) = 725.
Proof.
  apply (eeprom_word_round_trip TrackingWord 725 (powerOn (fun _ => 0))).
  - lia.
  - lia.
  - vm_compute. discriminate.
Defined.

(** ** The menu *)

(** C5: outside edit mode, on a page of the valid range, one detent of the
    encoder moves the page circularly: +1 from the last valid page gives
    page 1, -1 from page 1 gives the last valid page, any other move is by
    one; the last valid page is 4 when the configuration is clean and 5
    when it is dirty, computed from the state at that rotation (which the
    rotation does not make dirtier or cleaner). *)
Theorem page_cycling_is_circular (i : Inputs) (m : Machine) :
  editMode m = false ->
  1 <= currentPageIndex m <= (if isDirty m then 5 else 4) ->
  let lastPage := if isDirty m then 5 else 4 in
  let m' := state_after (encoderRotated i) m in
  currentPageIndex m' =
    (if level i DT_PIN
     then (if currentPageIndex m =? lastPage then 1 else currentPageIndex m + 1)
     else (if currentPageIndex m =? 1 then lastPage else currentPageIndex m - 1))
  /\ isDirty m' = isDirty m.
Proof.
  destruct m. proc_step. intros -> Hpage. revert Hpage.
  unfold CInt.to_uint8.
  repeat (split_if; proc_step); bool_hyps; intros; split; try reflexivity.
  all: try (exfalso; Z.div_mod_to_equations; lia).
  all: try (Z.div_mod_to_equations; lia).
Qed.

(** C5 at work: from page 4 with a clean configuration a clockwise detent
    lands on page 1, and from page 3 an anticlockwise one on page 2. *)
Lemma page_cycling_is_circular_witness :
  let m := state_after (loop (turn true 0)) firstBoot in
  currentPageIndex m = 4
  /\ isDirty m = false
  /\ currentPageIndex (state_after (encoderRotated (turn true 0)) m) = 1
  /\ currentPageIndex (state_after (encoderRotated (turn false 0)) firstBoot) = 2.
Proof.
  split; [reflexivity|]. split; [reflexivity|]. split.
  - apply (page_cycling_is_circular (turn true 0)
             (state_after (loop (turn true 0)) firstBoot)).
    + reflexivity.
    + vm_compute. split; discriminate.
  - apply (page_cycling_is_circular (turn false 0) firstBoot).
    + reflexivity.
    + vm_compute. split; discriminate.
Defined.

(** C1: the sketch at the input where it departs from the claim.  On the
    Save page (5, configuration dirty), the press handler saves and then
    leaves [currentPageIndex] at 0, not at 1: a value outside 1..4 and
    outside the values 1..5 the sketch documents for the variable.  The
    whole loop iteration of that press ends with the same page index. *)
Theorem save_press_leaves_page_zero :
  let m := state_after
             (iterations [turn false 0; turn false 0; press 0;
                          turn true 0; press 0; turn false 0])
             firstBoot in
  reachable m
  /\ editMode m = false
  /\ currentPageIndex m = 5
  /\ isDirty m = true
  /\ currentPageIndex (state_after encoderPressed m) = 0
  /\ isDirty (state_after encoderPressed m) = false
  /\ currentPageIndex (state_after (loop (press 0)) m) = 0.
Proof.
  split.
  - apply reachable_iterations, reach_setup.
  - vm_compute. repeat split; reflexivity.
Qed.

(** The same for every state on the Save page, and what mends it: the next
    detent, in either direction, lands on page 1. *)
Lemma save_press_page (m : Machine) :
  editMode m = false ->
  currentPageIndex m = 5 ->
  currentPageIndex (state_after encoderPressed m) = 0.
Proof.
  destruct m. proc_step. intros -> ->. reflexivity.
Qed.

Lemma page_zero_next_detent (i : Inputs) (m : Machine) :
  editMode m = false ->
  currentPageIndex m = 0 ->
  currentPageIndex (state_after (encoderRotated i) m) = 1.
Proof.
  destruct m. proc_step. intros -> ->.
  destruct (level i DT_PIN).
  - change (CInt.to_uint8 (0 + 1)) with 1.
    repeat (split_if; proc_step); bool_hyps; try lia; reflexivity.
  - change (CInt.to_uint8 (0 + -1)) with 255.
    repeat (split_if; proc_step); bool_hyps; try lia; reflexivity.
Qed.

(** C6 (amended): pressing the button outside edit mode on the tracking
    speed page or on the home speed page sets [editMode] and forces the
    motor to Idle whatever it was doing; the blink phase and the blink
    timestamp are left as they were (the handler does not reset them). *)
Theorem enter_edit_stops_motor (m : Machine) :
  editMode m = false ->
  currentPageIndex m = 1 \/ currentPageIndex m = 2 ->
  let m' := state_after encoderPressed m in
  editMode m' = true
  /\ motorRunning m' = 0
  /\ motorState m' = Idle
  /\ editModeBlinkDark m' = editModeBlinkDark m
  /\ lastUpdateEditModeScreen m' = lastUpdateEditModeScreen m.
Proof.
  unfold motorState.
  destruct m. proc_step. intros -> [-> | ->]; repeat split; reflexivity.
Qed.

(** C6 at work: a tracking motor is stopped by entering edit mode on the
    home speed page. *)
Lemma enter_edit_stops_motor_witness :
  let m := state_after (iterations [press 0; turn false 0]) firstBoot in
  motorState m = Tracking
  /\ currentPageIndex m = 2
  /\ editMode (state_after encoderPressed m) = true
  /\ motorRunning (state_after encoderPressed m) = 0
  /\ motorState (state_after encoderPressed m) = Idle
  /\ editModeBlinkDark (state_after encoderPressed m) = editModeBlinkDark m
  /\ lastUpdateEditModeScreen (state_after encoderPressed m)
     = lastUpdateEditModeScreen m.
Proof.
  split; [reflexivity|]. split; [reflexivity|].
  apply (enter_edit_stops_motor
           (state_after (iterations [press 0; turn false 0]) firstBoot)).
  - reflexivity.
  - right. reflexivity.
Defined.

(** C6 as stated fails: after an edit session in which the blink toggled
    once, entering edit mode again starts with the blink phase still dark. *)
Lemma enter_edit_keeps_blink_phase :
  let m := state_after
             (iterations [turn false 0; turn false 0; press 0;
                          quiet 300; press 300])
             firstBoot in
  reachable m
  /\ editMode m = false
  /\ currentPageIndex m = 1
  /\ editModeBlinkDark m = true
  /\ ~ (editMode (state_after encoderPressed m) = true
        /\ editModeBlinkDark (state_after encoderPressed m) = false
        /\ motorRunning (state_after encoderPressed m) = 0).
Proof.
  split.
  - apply reachable_iterations, reach_setup.
  - vm_compute. repeat split; try reflexivity.
    intros (_ & H & _). discriminate H.
Qed.

(** ** Calls issued by the handlers *)

Lemma steppingCalls_app (a b : list Call) :
  steppingCalls (a ++ b) = (steppingCalls a + steppingCalls b)%nat.
Proof. unfold steppingCalls. rewrite filter_app, length_app. reflexivity. Qed.

Lemma limitReads_app (a b : list Call) :
  limitReads (a ++ b) = (limitReads a + limitReads b)%nat.
Proof. unfold limitReads. rewrite filter_app, length_app. reflexivity. Qed.

Lemma encoderPressed_calls (m : Machine) :
  steppingCalls (calls_of encoderPressed m) = 0%nat
  /\ limitReads (calls_of encoderPressed m) = 0%nat.
Proof. destruct m. proc_cases; split; reflexivity. Qed.

Lemma encoderRotated_calls (i : Inputs) (m : Machine) :
  steppingCalls (calls_of (encoderRotated i) m) = 0%nat
  /\ limitReads (calls_of (encoderRotated i) m) = 0%nat.
Proof. destruct m. proc_cases; split; reflexivity. Qed.

Lemma dispatch_calls (i : Inputs) (m : Machine) :
  steppingCalls (calls_of (dispatch i) m) = 0%nat
  /\ limitReads (calls_of (dispatch i) m) = 0%nat.
Proof.
  unfold dispatch. rewrite calls_of_bind, steppingCalls_app, limitReads_app.
  destruct (switchFell i), (clkFell i); cbn [when].
  all: repeat match goal with
       | |- context [calls_of encoderPressed ?x] =>
           destruct (encoderPressed_calls x) as [-> ->]
       | |- context [calls_of (encoderRotated ?j) ?x] =>
           destruct (encoderRotated_calls j x) as [-> ->]
       end.
  all: split; reflexivity.
Qed.

Lemma editBlink_calls (i : Inputs) (m : Machine) :
  steppingCalls (calls_of (editBlink i) m) = 0%nat
  /\ limitReads (calls_of (editBlink i) m) = 0%nat.
Proof. destruct m. unfold editBlink. proc_cases; split; reflexivity. Qed.

(** ** The motor *)

Lemma editBlink_motor (i : Inputs) (m : Machine) :
  motorRunning (state_after (editBlink i) m) = motorRunning m.
Proof. destruct m. unfold editBlink. proc_cases; reflexivity. Qed.

Lemma encoderRotated_motor (i : Inputs) (m : Machine) :
  motorRunning (state_after (encoderRotated i) m) = motorRunning m.
Proof. destruct m. proc_cases; reflexivity. Qed.

(** What one call of [runTheStepper] does: a motion whose limit switch is
    active is stopped without a step, any other motion gets one
    [runSpeed] call, and an idle motor is left alone. *)
Lemma runTheStepper_spec (i : Inputs) (m : Machine) :
  let m' := state_after (runTheStepper i) m in
  let steps := steppingCalls (calls_of (runTheStepper i) m) in
  if limitHit i m then motorState m' = Idle /\ steps = 0%nat
  else match motorState m with
       | Idle => motorState m' = Idle /\ steps = 0%nat
       | _ => motorRunning m' = motorRunning m /\ steps = 1%nat
       end.
Proof.
  unfold limitHit, switchActive, motorState.
  destruct m. proc_cases; bool_hyps; try lia; split; reflexivity.
Qed.

Lemma runTheStepper_motor (i : Inputs) (m : Machine) :
  motorRunning (state_after (runTheStepper i) m) = motorRunning m
  \/ motorRunning (state_after (runTheStepper i) m) = 0.
Proof. destruct m. proc_cases; auto. Qed.

Lemma encoderPressed_from_homing (m : Machine) :
  motorState m = Homing ->
  motorState (state_after encoderPressed m) = Homing
  \/ motorState (state_after encoderPressed m) = Idle.
Proof.
  unfold motorState. destruct m. proc_cases; bool_hyps; intros; try discriminate; auto; try lia.
Qed.

Lemma motorState_of_running (m m' : Machine) :
  motorRunning m' = motorRunning m -> motorState m' = motorState m.
Proof. unfold motorState. intros ->. reflexivity. Qed.

Lemma motorState_idle (m : Machine) :
  motorRunning m = 0 -> motorState m = Idle.
Proof. unfold motorState. intros ->. reflexivity. Qed.

Lemma dispatch_from_homing (i : Inputs) (m : Machine) :
  motorState m = Homing ->
  motorState (state_after (dispatch i) m) = Homing
  \/ motorState (state_after (dispatch i) m) = Idle.
Proof.
  intros Hm. unfold dispatch. rewrite state_after_bind.
  assert (Hpress : motorState (state_after (when (switchFell i) encoderPressed) m) = Homing
                   \/ motorState (state_after (when (switchFell i) encoderPressed) m) = Idle).
  { destruct (switchFell i); cbn [when].
    - apply encoderPressed_from_homing, Hm.
    - left. exact Hm. }
  destruct (clkFell i); cbn [when].
  - rewrite (motorState_of_running _ _ (encoderRotated_motor i _)). exact Hpress.
  - exact Hpress.
Qed.

(** C3 (amended): the motor never goes directly from Homing to Tracking:
    from Homing, each handler, [runTheStepper] and every whole loop
    iteration leave it Homing or Idle.  (The opposite direction is not
    guarded, see [tracking_switches_directly_to_homing].) *)
Theorem homing_never_switches_to_tracking (i : Inputs) (m : Machine) :
  motorState m = Homing ->
  (motorState (state_after encoderPressed m) = Homing
   \/ motorState (state_after encoderPressed m) = Idle)
  /\ motorState (state_after (encoderRotated i) m) = Homing
  /\ (motorState (state_after (runTheStepper i) m) = Homing
      \/ motorState (state_after (runTheStepper i) m) = Idle)
  /\ (motorState (state_after (loop i) m) = Homing
      \/ motorState (state_after (loop i) m) = Idle).
Proof.
  intros Hm.
  assert (Hstep : forall m1, motorState m1 = Homing \/ motorState m1 = Idle ->
            motorState (state_after (runTheStepper i) m1) = Homing
            \/ motorState (state_after (runTheStepper i) m1) = Idle).
  { intros m1 H1.
    destruct (runTheStepper_motor i m1) as [Hsame | Hzero].
    - rewrite (motorState_of_running _ _ Hsame). exact H1.
    - right. apply motorState_idle, Hzero. }
  split; [apply encoderPressed_from_homing, Hm|].
  split; [rewrite (motorState_of_running _ _ (encoderRotated_motor i m)); exact Hm|].
  split; [apply Hstep; left; exact Hm|].
  rewrite loop_state. cbn zeta.
  pose proof (dispatch_from_homing i m Hm) as Hd.
  destruct (editMode (state_after (dispatch i) m)).
  - rewrite (motorState_of_running _ _ (editBlink_motor i _)). exact Hd.
  - apply Hstep, Hd.
Qed.

(** C3 (amended) at work: a homing motor, the button pressed on the
    Start/Stop page. *)
Lemma homing_never_switches_to_tracking_witness :
  let m := state_after (iterations [turn true 0; press 0]) firstBoot in
  motorState m = Homing
  /\ motorState (state_after (loop (turn false 0)) m) = Homing
  /\ (motorState (state_after (loop (press 0)) (state_after (loop (turn false 0)) m)) = Homing
     \/ motorState (state_after (loop (press 0)) (state_after (loop (turn false 0)) m)) = Idle).
Proof.
  split; [reflexivity|]. split; [reflexivity|].
  apply (homing_never_switches_to_tracking (press 0)
           (state_after (iterations [turn true 0; press 0; turn false 0]) firstBoot)).
  reflexivity.
Defined.

(** C3 as stated fails: in a state the sketch reaches (Start pressed, one
    detent to the Return-Home page) the motor is Tracking and a single
    press, hence a single loop iteration, leaves it Homing. *)
Lemma tracking_switches_directly_to_homing :
  let m := state_after (iterations [press 0; turn true 0]) firstBoot in
  reachable m
  /\ motorState m = Tracking
  /\ motorState (state_after encoderPressed m) = Homing
  /\ motorState (state_after (loop (press 0)) m) = Homing.
Proof.
  split.
  - apply reachable_iterations, reach_setup.
  - repeat split; reflexivity.
Qed.

(** C7: in a loop iteration that is in normal mode once its events are
    handled: when the motor is Tracking and the end switch is active, or
    Homing and the home switch is active, the motor becomes Idle and the
    iteration issues no [runSpeed] call; otherwise a running motor keeps
    its state and the iteration issues exactly one [runSpeed] call (and an
    idle motor none). *)
Theorem limit_switch_stops_motion (i : Inputs) (m : Machine) :
  let m1 := state_after (dispatch i) m in
  let m2 := state_after (loop i) m in
  let steps := steppingCalls (calls_of (loop i) m) in
  editMode m1 = false ->
  if limitHit i m1 then motorState m2 = Idle /\ steps = 0%nat
  else match motorState m1 with
       | Idle => motorState m2 = Idle /\ steps = 0%nat
       | _ => motorRunning m2 = motorRunning m1 /\ steps = 1%nat
       end.
Proof.
  intros m1 m2 steps Hnormal.
  subst m2 steps. rewrite loop_state, loop_calls, steppingCalls_app. cbn zeta.
  fold m1. rewrite Hnormal.
  destruct (dispatch_calls i m) as [-> _]. cbn [Nat.add].
  apply runTheStepper_spec.
Qed.

(** C7 at work: tracking, the end switch reads LOW. *)
Lemma limit_switch_stops_motion_witness :
  let atEnd := mkInputs false false
                 (fun p => match p with END_SWITCH_PIN => false | _ => true end)
                 5 5 in
  let m := state_after (loop (press 0)) firstBoot in
  motorState m = Tracking
  /\ limitHit atEnd m = true
  /\ motorState (state_after (loop atEnd) m) = Idle
  /\ steppingCalls (calls_of (loop atEnd) m) = 0%nat.
Proof.
  split; [reflexivity|]. split; [reflexivity|].
  apply (limit_switch_stops_motion
           (mkInputs false false
              (fun p => match p with END_SWITCH_PIN => false | _ => true end)
              5 5)
           (state_after (loop (press 0)) firstBoot)).
  reflexivity.
Defined.

(** C10: in a loop iteration that is in edit mode once its events are
    handled, the mode phase is the blink timer and not [runTheStepper]: the
    iteration issues no [runSpeed] call, reads neither limit switch, and
    its mode phase leaves [motorRunning] as the event phase left it. *)
Theorem edit_mode_skips_the_stepper (i : Inputs) (m : Machine) :
  let m1 := state_after (dispatch i) m in
  editMode m1 = true ->
  state_after (loop i) m = state_after (editBlink i) m1
  /\ calls_of (loop i) m = calls_of (dispatch i) m ++ calls_of (editBlink i) m1
  /\ steppingCalls (calls_of (loop i) m) = 0%nat
  /\ limitReads (calls_of (loop i) m) = 0%nat
  /\ motorRunning (state_after (loop i) m) = motorRunning m1.
Proof.
  intros m1 Hedit.
  rewrite loop_state, loop_calls. cbn zeta. fold m1. rewrite Hedit.
  rewrite steppingCalls_app, limitReads_app.
  destruct (dispatch_calls i m) as [-> ->].
  destruct (editBlink_calls i m1) as [-> ->].
  rewrite editBlink_motor.
  repeat split; reflexivity.
Qed.

(** C10 at work: editing the home speed while both limit switches read
    LOW and the blink is due. *)
Lemma edit_mode_skips_the_stepper_witness :
  let editing := state_after (iterations [turn false 0; press 0]) firstBoot in
  let endActive := mkInputs false false (fun _ => false) 300 301 in
  editMode editing = true
  /\ state_after (loop endActive) editing
     = state_after (editBlink endActive) (state_after (dispatch endActive) editing)
  /\ calls_of (loop endActive) editing
     = calls_of (dispatch endActive) editing
       ++ calls_of (editBlink endActive) (state_after (dispatch endActive) editing)
  /\ steppingCalls (calls_of (loop endActive) editing) = 0%nat
  /\ limitReads (calls_of (loop endActive) editing) = 0%nat
  /\ motorRunning (state_after (loop endActive) editing)
     = motorRunning (state_after (dispatch endActive) editing).
Proof.
  split; [reflexivity|].
  apply (edit_mode_skips_the_stepper
           (mkInputs false false (fun _ => false) 300 301)
           (state_after (iterations [turn false 0; press 0]) firstBoot)).
  reflexivity.
Defined.

Lemma encoderPressed_editInvariant (m : Machine) :
  editInvariant m -> editInvariant (state_after encoderPressed m).
Proof.
  unfold editInvariant. destruct m.
  proc_cases; bool_hyps; intros; try discriminate; auto.
Qed.

Lemma encoderRotated_editInvariant (i : Inputs) (m : Machine) :
  editInvariant m -> editInvariant (state_after (encoderRotated i) m).
Proof.
  unfold editInvariant. destruct m.
  proc_cases; bool_hyps; intros; try discriminate; auto.
Qed.

Lemma runTheStepper_editInvariant (i : Inputs) (m : Machine) :
  editInvariant m -> editInvariant (state_after (runTheStepper i) m).
Proof.
  unfold editInvariant. destruct m.
  proc_cases; bool_hyps; intros H E; destruct (H E) as [? ?]; subst; auto; try lia.
Qed.

Lemma editBlink_editInvariant (i : Inputs) (m : Machine) :
  editInvariant m -> editInvariant (state_after (editBlink i) m).
Proof.
  unfold editInvariant, editBlink. destruct m.
  proc_cases; auto.
Qed.

Lemma dispatch_editInvariant (i : Inputs) (m : Machine) :
  editInvariant m -> editInvariant (state_after (dispatch i) m).
Proof.
  intros Hm. unfold dispatch. rewrite state_after_bind.
  assert (Hp : editInvariant (state_after (when (switchFell i) encoderPressed) m)).
  { destruct (switchFell i); cbn [when].
    - apply encoderPressed_editInvariant, Hm.
    - exact Hm. }
  destruct (clkFell i); cbn [when].
  - apply encoderRotated_editInvariant, Hp.
  - exact Hp.
Qed.

Lemma reachable_editInvariant (m : Machine) :
  reachable m -> editInvariant m.
Proof.
  induction 1 as [e | m i Hm IH].
  - unfold editInvariant. unfold powerOn. proc_cases; intros; discriminate.
  - rewrite loop_state. cbn zeta.
    destruct (editMode (state_after (dispatch i) m)).
    + apply editBlink_editInvariant, dispatch_editInvariant, IH.
    + apply runTheStepper_editInvariant, dispatch_editInvariant, IH.
Qed.

(** While the sketch is in edit mode at the top of an iteration, that
    iteration issues no step and polls no limit switch, whatever events
    arrive, and the motor stays idle. *)
Lemma editing_iteration_is_still (i : Inputs) (m : Machine) :
  reachable m ->
  editMode m = true ->
  steppingCalls (calls_of (loop i) m) = 0%nat
  /\ limitReads (calls_of (loop i) m) = 0%nat
  /\ motorRunning (state_after (loop i) m) = 0.
Proof.
  intros Hreach Hedit.
  destruct (reachable_editInvariant m Hreach Hedit) as [Hidle _].
  assert (Hd : motorRunning (state_after (dispatch i) m) = 0).
  { unfold dispatch. rewrite state_after_bind.
    assert (Hp : motorRunning (state_after (when (switchFell i) encoderPressed) m) = 0).
    { destruct (switchFell i); cbn [when]; [|exact Hidle].
      revert Hedit Hidle. destruct m. proc_step. intros -> ->. reflexivity. }
    destruct (clkFell i); cbn [when]; [|exact Hp].
    rewrite encoderRotated_motor. exact Hp. }
  rewrite loop_state, loop_calls. cbn zeta.
  rewrite steppingCalls_app, limitReads_app.
  destruct (dispatch_calls i m) as [-> ->].
  destruct (editMode (state_after (dispatch i) m)).
  - destruct (editBlink_calls i (state_after (dispatch i) m)) as [-> ->].
    rewrite editBlink_motor. auto.
  - revert Hd. generalize (state_after (dispatch i) m). intros m1 Hd.
    destruct m1. revert Hd. proc_step. intros ->. auto.
Qed.

(** ** Editing a speed *)

Lemma clampSpeed_range (v : Z) : 1 <= clampSpeed v <= 1000.
Proof.
  unfold clampSpeed.
  destruct (Z.ltb_spec v 1); [lia|].
  destruct (Z.ltb_spec 1000 v); lia.
Qed.

(** One detent in edit mode: the selected speed moves by one and is
    clamped; nothing else of the configuration changes. *)
Lemma adjust_step (i : Inputs) (m : Machine) :
  editMode m = true ->
  speedsInRange m ->
  let change := if level i DT_PIN then 1 else -1 in
  let m' := state_after (encoderRotated i) m in
  stepperTrackingSpeed m' =
    (if currentPageIndex m =? 1 then clampSpeed (stepperTrackingSpeed m + change)
     else stepperTrackingSpeed m)
  /\ homeSpeed m' =
    (if currentPageIndex m =? 1 then homeSpeed m
     else if currentPageIndex m =? 2 then clampSpeed (homeSpeed m + change)
     else homeSpeed m)
  /\ initialStepperTrackingSpeed m' = initialStepperTrackingSpeed m
  /\ initialHomeSpeed m' = initialHomeSpeed m
  /\ editMode m' = true.
Proof.
  unfold speedsInRange. destruct m. proc_step.
  intros -> [Ht Hh].
  repeat (split_if; proc_step); repeat split; try reflexivity.
  all: rewrite to_int_small by lia; reflexivity.
Qed.

(** C8: from working speeds in [1,1000], after every detent of any
    sequence of encoder rotations in edit mode both working speeds are
    still in [1,1000] and the saved snapshot is the one the sequence
    started with. *)
Theorem adjust_keeps_speeds_in_range (inputs : list Inputs) (m : Machine) :
  editMode m = true ->
  speedsInRange m ->
  Forall (fun m' =>
            speedsInRange m'
            /\ initialStepperTrackingSpeed m' = initialStepperTrackingSpeed m
            /\ initialHomeSpeed m' = initialHomeSpeed m)
         (rotationStates inputs m).
Proof.
  revert m. induction inputs as [| i rest IH]; intros m Hedit Hrange.
  - constructor.
  - cbn [rotationStates].
    destruct (adjust_step i m Hedit Hrange) as (Ht & Hh & Hit & Hih & Hedit').
    assert (Hrange' : speedsInRange (state_after (encoderRotated i) m)).
    { destruct Hrange as [Rt Rh]. split.
      - rewrite Ht. destruct (currentPageIndex m =? 1);
          [apply clampSpeed_range | exact Rt].
      - rewrite Hh. destruct (currentPageIndex m =? 1); [exact Rh|].
        destruct (currentPageIndex m =? 2);
          [apply clampSpeed_range | exact Rh]. }
    constructor.
    + auto.
    + specialize (IH _ Hedit' Hrange').
      rewrite Hit, Hih in IH. exact IH.
Qed.

(** C8 at work: editing the tracking speed from 1, one detent down (clamped
    at 1) and two up. *)
Lemma adjust_keeps_speeds_in_range_witness :
  let editing := state_after (iterations [turn false 0; turn false 0; press 0]) firstBoot in
  stepperTrackingSpeed editing = 1
  /\ map stepperTrackingSpeed
       (rotationStates [turn false 0; turn true 0; turn true 0] editing) = [1; 2; 3]
  /\ Forall (fun m' =>
            speedsInRange m'
            /\ initialStepperTrackingSpeed m' = initialStepperTrackingSpeed editing
            /\ initialHomeSpeed m' = initialHomeSpeed editing)
         (rotationStates [turn false 0; turn true 0; turn true 0] editing).
Proof.
  split; [reflexivity|]. split; [reflexivity|].
  apply (adjust_keeps_speeds_in_range
           [turn false 0; turn true 0; turn true 0]
           (state_after (iterations [turn false 0; turn false 0; press 0]) firstBoot)).
  - reflexivity.
  - unfold speedsInRange. vm_compute. repeat split; discriminate.
Defined.

(** * Further properties of the sketch *)

(** ** Invariants of the reachable states *)

(** An invariant of the four pieces a loop iteration is made of is an
    invariant of the reachable states, once [setup] establishes it. *)
Lemma reachable_ind_pieces (P : Machine -> Prop) :
  (forall e, P (state_after setup (powerOn e))) ->
  (forall m, P m -> P (state_after encoderPressed m)) ->
  (forall i m, P m -> P (state_after (encoderRotated i) m)) ->
  (forall i m, P m -> P (state_after (editBlink i) m)) ->
  (forall i m, P m -> P (state_after (runTheStepper i) m)) ->
  forall m, reachable m -> P m.
Proof.
  intros Hsetup Hpress Hturn Hblink Hstep m Hreach.
  induction Hreach as [e | m i Hm IH]; [apply Hsetup|].
  rewrite loop_state. cbn zeta.
  assert (Hd : P (state_after (dispatch i) m)).
  { unfold dispatch. rewrite state_after_bind.
    assert (Hp : P (state_after (when (switchFell i) encoderPressed) m)).
    { destruct (switchFell i); cbn [when]; [apply Hpress, IH | exact IH]. }
    destruct (clkFell i); cbn [when]; [apply Hturn, Hp | exact Hp]. }
  destruct (editMode (state_after (dispatch i) m)); [apply Hblink | apply Hstep];
    exact Hd.
Qed.

Lemma encoderPressed_pageInvariant (m : Machine) :
  pageInvariant m -> pageInvariant (state_after encoderPressed m).
Proof.
  unfold pageInvariant. destruct m. proc_step.
  repeat (split_if; proc_step); bool_hyps; intros; subst; try lia; auto.
  all: right; right; split; [reflexivity|].
  all: repeat match goal with
       | |- context [?a =? ?a] => rewrite (Z.eqb_refl a)
       end; reflexivity.
Qed.

Lemma encoderRotated_pageInvariant (i : Inputs) (m : Machine) :
  pageInvariant m -> pageInvariant (state_after (encoderRotated i) m).
Proof.
  unfold pageInvariant. destruct m. proc_step. unfold CInt.to_uint8.
  repeat (split_if; proc_step); bool_hyps; intros.
  all: try (left; lia).
  all: try (exfalso; Z.div_mod_to_equations; lia).
  all: try (Z.div_mod_to_equations; lia).
Qed.

Lemma pageInvariant_same (m m' : Machine) :
  currentPageIndex m' = currentPageIndex m ->
  isDirty m' = isDirty m ->
  pageInvariant m -> pageInvariant m'.
Proof. unfold pageInvariant. intros -> ->. auto. Qed.

Lemma runTheStepper_pageInvariant (i : Inputs) (m : Machine) :
  pageInvariant m -> pageInvariant (state_after (runTheStepper i) m).
Proof.
  apply pageInvariant_same; destruct m; proc_cases; reflexivity.
Qed.

Lemma editBlink_pageInvariant (i : Inputs) (m : Machine) :
  pageInvariant m -> pageInvariant (state_after (editBlink i) m).
Proof.
  apply pageInvariant_same; destruct m; unfold editBlink; proc_cases; reflexivity.
Qed.

Lemma setup_loads (m : Machine) :
  state_after setup m = state_after readSpeedConfigFromEeprom m.
Proof.
  unfold setup, state_after, bind, call, updateMainScreen, gets.
  destruct (readSpeedConfigFromEeprom m) as [[[] m1] c1]. reflexivity.
Qed.

Lemma setup_state (e : Z -> Z) :
  let m := state_after setup (powerOn e) in
  editMode m = false
  /\ editModeBlinkDark m = false
  /\ motorRunning m = 0
  /\ currentPageIndex m = 3
  /\ isDirty m = false.
Proof.
  cbn zeta. rewrite setup_loads.
  destruct (readSpeedConfig_result (powerOn e)) as (Ht & Hh & Hit & Hih).
  repeat split;
    [unfold powerOn; proc_cases; reflexivity .. |].
  apply isDirty_false_iff. rewrite Ht, Hh, Hit, Hih. split; reflexivity.
Qed.

Lemma reachable_pageInvariant (m : Machine) :
  reachable m -> pageInvariant m.
Proof.
  apply reachable_ind_pieces.
  - intros e. destruct (setup_state e) as (_ & _ & _ & Hp & _).
    left. rewrite Hp. lia.
  - apply encoderPressed_pageInvariant.
  - apply encoderRotated_pageInvariant.
  - apply editBlink_pageInvariant.
  - apply runTheStepper_pageInvariant.
Qed.

Lemma reachable_motorInvariant (m : Machine) :
  reachable m -> motorInvariant m.
Proof.
  apply reachable_ind_pieces; unfold motorInvariant.
  - intros e. destruct (setup_state e) as (_ & _ & Hm & _). auto.
  - intros m0. destruct m0. proc_cases; auto.
  - intros i m0. rewrite encoderRotated_motor. auto.
  - intros i m0. rewrite editBlink_motor. auto.
  - intros i m0 H. destruct (runTheStepper_motor i m0) as [-> | ->]; auto.
Qed.

(** X1: in every state the sketch reaches, the page index is one of the
    pages 1..4, or 5 with a dirty configuration, or 0 with a clean one (the
    index left by Save): the Save page is never selected while there is
    nothing to save. *)
Theorem save_page_selected_only_when_dirty (m : Machine) :
  reachable m ->
  (1 <= currentPageIndex m <= 4)
  \/ (currentPageIndex m = 5 /\ isDirty m = true)
  \/ (currentPageIndex m = 0 /\ isDirty m = false).
Proof. apply reachable_pageInvariant. Qed.

Lemma save_page_selected_only_when_dirty_witness :
  let m := state_after
             (iterations [turn false 0; turn false 0; press 0;
                          turn true 0; press 0; turn false 0])
             firstBoot in
  currentPageIndex m = 5
  /\ ((1 <= currentPageIndex m <= 4)
      \/ (currentPageIndex m = 5 /\ isDirty m = true)
      \/ (currentPageIndex m = 0 /\ isDirty m = false)).
Proof.
  split; [reflexivity|].
  apply (save_page_selected_only_when_dirty
           (state_after
             (iterations [turn false 0; turn false 0; press 0;
                          turn true 0; press 0; turn false 0])
             firstBoot)).
  apply reachable_iterations, reach_setup.
Defined.

(** X2: in every state the sketch reaches, editing implies an idle motor and
    one of the two speed pages. *)
Theorem editing_only_on_speed_pages_with_idle_motor (m : Machine) :
  reachable m ->
  editMode m = true ->
  motorState m = Idle
  /\ (currentPageIndex m = 1 \/ currentPageIndex m = 2).
Proof.
  intros Hreach Hedit.
  destruct (reachable_editInvariant m Hreach Hedit) as [Hidle Hpage].
  split; [apply motorState_idle, Hidle | exact Hpage].
Qed.

Lemma editing_only_on_speed_pages_with_idle_motor_witness :
  let m := state_after (iterations [press 0; turn false 0; press 0]) firstBoot in
  editMode m = true
  /\ motorState m = Idle
  /\ (currentPageIndex m = 1 \/ currentPageIndex m = 2).
Proof.
  split; [reflexivity|].
  apply (editing_only_on_speed_pages_with_idle_motor
           (state_after (iterations [press 0; turn false 0; press 0]) firstBoot)).
  - apply reachable_iterations, reach_setup.
  - reflexivity.
Defined.

(** X3: in every state the sketch reaches, [motorRunning] is 0, 1 or -1, so
    the status line of the screen always carries one of its three texts. *)
Theorem motor_value_is_a_run_mode (m : Machine) :
  reachable m ->
  (motorRunning m = 0 \/ motorRunning m = 1 \/ motorRunning m = -1)
  /\ motorCaption (screenOf m) <> None.
Proof.
  intros Hreach. pose proof (reachable_motorInvariant m Hreach) as H.
  split; [exact H|].
  unfold screenOf. cbn [motorCaption].
  destruct H as [-> | [-> | ->]]; discriminate.
Qed.

Lemma motor_value_is_a_run_mode_witness :
  let m := state_after (iterations [turn true 0; press 0]) firstBoot in
  motorRunning m = -1
  /\ ((motorRunning m = 0 \/ motorRunning m = 1 \/ motorRunning m = -1)
      /\ motorCaption (screenOf m) <> None).
Proof.
  split; [reflexivity|].
  apply (motor_value_is_a_run_mode
           (state_after (iterations [turn true 0; press 0]) firstBoot)).
  apply reachable_iterations, reach_setup.
Defined.

(** ** The configuration along a run *)

Lemma encoderPressed_configInRange (m : Machine) :
  configInRange m -> configInRange (state_after encoderPressed m).
Proof.
  unfold configInRange, speedsInRange. destruct m. proc_cases; tauto.
Qed.

Lemma encoderRotated_configInRange (i : Inputs) (m : Machine) :
  configInRange m -> configInRange (state_after (encoderRotated i) m).
Proof.
  unfold configInRange, speedsInRange. destruct m. proc_step.
  repeat (split_if; proc_step); intros; try tauto.
  all: repeat split; try tauto; try apply clampSpeed_range.
Qed.

Lemma runTheStepper_configInRange (i : Inputs) (m : Machine) :
  configInRange m -> configInRange (state_after (runTheStepper i) m).
Proof.
  unfold configInRange, speedsInRange. destruct m. proc_cases; tauto.
Qed.

Lemma editBlink_configInRange (i : Inputs) (m : Machine) :
  configInRange m -> configInRange (state_after (editBlink i) m).
Proof.
  unfold configInRange, speedsInRange, editBlink. destruct m. proc_cases; tauto.
Qed.

Lemma loop_configInRange (i : Inputs) (m : Machine) :
  configInRange m -> configInRange (state_after (loop i) m).
Proof.
  intros Hm. rewrite loop_state. cbn zeta.
  assert (Hd : configInRange (state_after (dispatch i) m)).
  { unfold dispatch. rewrite state_after_bind.
    assert (Hp : configInRange (state_after (when (switchFell i) encoderPressed) m)).
    { destruct (switchFell i); cbn [when];
        [apply encoderPressed_configInRange, Hm | exact Hm]. }
    destruct (clkFell i); cbn [when];
      [apply encoderRotated_configInRange, Hp | exact Hp]. }
  destruct (editMode (state_after (dispatch i) m));
    [apply editBlink_configInRange | apply runTheStepper_configInRange]; exact Hd.
Qed.

Lemma iterations_configInRange (inputs : list Inputs) (m : Machine) :
  configInRange m -> configInRange (state_after (iterations inputs) m).
Proof.
  revert m. induction inputs as [| i rest IH]; intros m Hm.
  - exact Hm.
  - cbn [iterations]. rewrite state_after_bind.
    apply IH, loop_configInRange, Hm.
Qed.

Lemma setup_configInRange (e : Z -> Z) :
  usableStore e -> configInRange (state_after setup (powerOn e)).
Proof.
  unfold usableStore. cbn zeta. intros Hstore.
  rewrite setup_loads.
  destruct (readSpeedConfig_result (powerOn e)) as (Ht & Hh & Hit & Hih).
  cbn zeta in Ht, Hh, Hit, Hih.
  pose proof (storedWord_range (powerOn e) stepper_speed_address) as R1.
  pose proof (storedWord_range (powerOn e) home_speed_address) as R2.
  pose proof (to_int_in_speed_range _ R1) as T1.
  pose proof (to_int_in_speed_range _ R2) as T2.
  unfold configInRange, speedsInRange.
  rewrite Ht, Hh, Hit, Hih.
  destruct (Z.eqb_spec (storedWord (powerOn e) stepper_speed_address) 65535)
    as [E1 | N1]; cbn [orb fst snd]; [lia|].
  destruct (Z.eqb_spec (storedWord (powerOn e) home_speed_address) 65535)
    as [E2 | N2]; cbn [orb fst snd]; [lia|].
  tauto.
Qed.

(** X4: when the EEPROM holds a sentinel or two words in [1,1000], both
    working speeds and both saved speeds are in [1,1000] after [setup] and
    after every number of loop iterations, whatever the inputs. *)
Theorem speeds_stay_in_range (e : Z -> Z) (inputs : list Inputs) :
  usableStore e ->
  let m := state_after (iterations inputs) (state_after setup (powerOn e)) in
  1 <= stepperTrackingSpeed m <= 1000
  /\ 1 <= homeSpeed m <= 1000
  /\ 1 <= initialStepperTrackingSpeed m <= 1000
  /\ 1 <= initialHomeSpeed m <= 1000.
Proof.
  intros Hstore m.
  destruct (iterations_configInRange inputs _ (setup_configInRange e Hstore))
    as ((Ht & Hh) & Hit & Hih).
  auto.
Qed.

Lemma speeds_stay_in_range_witness :
  let e := fun a : Z => if a =? 1 then 232 else if a =? 3 then 7 else if a =? 0 then 3 else 0 in
  let run := [turn false 0; press 0; turn true 0; turn true 0] in
  let m := state_after (iterations run) (state_after setup (powerOn e)) in
  (stepperTrackingSpeed m, homeSpeed m) = (1000, 9)
  /\ 1 <= stepperTrackingSpeed m <= 1000
  /\ 1 <= homeSpeed m <= 1000
  /\ 1 <= initialStepperTrackingSpeed m <= 1000
  /\ 1 <= initialHomeSpeed m <= 1000.
Proof.
  split; [reflexivity|].
  apply (speeds_stay_in_range
           (fun a : Z => if a =? 1 then 232 else if a =? 3 then 7 else if a =? 0 then 3 else 0)
           [turn false 0; press 0; turn true 0; turn true 0]).
  unfold usableStore. vm_compute. right. right. repeat split; discriminate.
Defined.

(** ** What touches the stored configuration *)

Lemma storeKept_refl (m : Machine) : storeKept m m.
Proof. unfold storeKept. auto. Qed.

Lemma storeKept_trans (m1 m2 m3 : Machine) :
  storeKept m1 m2 -> storeKept m2 m3 -> storeKept m1 m3.
Proof.
  unfold storeKept. intros (He & Ht & Hh) (He' & Ht' & Hh').
  repeat split; [intros a; rewrite He'; apply He | congruence | congruence].
Qed.

Lemma storeKept_otherCells (m m' : Machine) :
  storeKept m m' -> otherCellsKept m m'.
Proof. intros [He _] a _. apply He. Qed.

Lemma otherCellsKept_trans (m1 m2 m3 : Machine) :
  otherCellsKept m1 m2 -> otherCellsKept m2 m3 -> otherCellsKept m1 m3.
Proof.
  unfold otherCellsKept. intros H12 H23 a Ha.
  rewrite H23 by exact Ha. apply H12, Ha.
Qed.

Lemma encoderRotated_storeKept (i : Inputs) (m : Machine) :
  storeKept m (state_after (encoderRotated i) m).
Proof. unfold storeKept. destruct m. proc_cases; auto. Qed.

Lemma runTheStepper_storeKept (i : Inputs) (m : Machine) :
  storeKept m (state_after (runTheStepper i) m).
Proof. unfold storeKept. destruct m. proc_cases; auto. Qed.

Lemma editBlink_storeKept (i : Inputs) (m : Machine) :
  storeKept m (state_after (editBlink i) m).
Proof. unfold storeKept, editBlink. destruct m. proc_cases; auto. Qed.

Lemma encoderPressed_storeKept (m : Machine) :
  (editMode m = false /\ currentPageIndex m = 5)
  \/ storeKept m (state_after encoderPressed m).
Proof.
  unfold storeKept. destruct m. proc_cases; bool_hyps; auto.
Qed.

Lemma encoderPressed_otherCells (m : Machine) :
  otherCellsKept m (state_after encoderPressed m).
Proof.
  unfold otherCellsKept. destruct m. proc_step.
  repeat (split_if; proc_step); intros a Ha; try reflexivity.
  cells.
  destruct (Z.eqb_spec a 3); [lia|].
  destruct (Z.eqb_spec a 2); [lia|].
  destruct (Z.eqb_spec a 1); [lia|].
  destruct (Z.eqb_spec a 0); [lia|].
  reflexivity.
Qed.

(** X5: a loop iteration changes the EEPROM content or the saved snapshot
    only when the button is pressed on the Save page outside edit mode, and
    even then it leaves every EEPROM cell other than 0..3 as it was. *)
Theorem only_save_changes_the_store (i : Inputs) (m : Machine) :
  let m' := state_after (loop i) m in
  ((switchFell i = true /\ editMode m = false /\ currentPageIndex m = 5)
   \/ ((forall a, EEPROM m' a = EEPROM m a)
       /\ initialStepperTrackingSpeed m' = initialStepperTrackingSpeed m
       /\ initialHomeSpeed m' = initialHomeSpeed m))
  /\ (forall a, a < 0 \/ 3 < a -> EEPROM m' a = EEPROM m a).
Proof.
  cbn zeta. rewrite loop_state. cbn zeta.
  set (m1 := state_after (when (switchFell i) encoderPressed) m).
  assert (Hd : state_after (dispatch i) m
               = state_after (when (clkFell i) (encoderRotated i)) m1).
  { unfold dispatch. rewrite state_after_bind. reflexivity. }
  set (m2 := state_after (dispatch i) m) in *.
  assert (H12 : storeKept m1 m2).
  { rewrite Hd. destruct (clkFell i); cbn [when];
      [apply encoderRotated_storeKept | apply storeKept_refl]. }
  set (m3 := if editMode m2 then state_after (editBlink i) m2
             else state_after (runTheStepper i) m2).
  assert (H23 : storeKept m2 m3).
  { subst m3. destruct (editMode m2);
      [apply editBlink_storeKept | apply runTheStepper_storeKept]. }
  pose proof (storeKept_trans _ _ _ H12 H23) as H13.
  split.
  - subst m1. destruct (switchFell i); cbn [when] in *.
    + destruct (encoderPressed_storeKept m) as [[He Hp] | Hk]; [left; auto|].
      right. exact (storeKept_trans _ _ _ Hk H13).
    + right. exact H13.
  - apply (otherCellsKept_trans m m1 m3); [|apply storeKept_otherCells, H13].
    subst m1. destruct (switchFell i); cbn [when].
    + apply encoderPressed_otherCells.
    + intros a _. reflexivity.
Qed.

(** ** Save, then a power cycle *)

Lemma saved_words (m : Machine) :
  storedWord (state_after saveSpeedConfiguration m) stepper_speed_address
  = CInt.to_uint (stepperTrackingSpeed m)
  /\ storedWord (state_after saveSpeedConfiguration m) home_speed_address
     = CInt.to_uint (homeSpeed m).
Proof.
  rewrite !storedWord_bytes, <- !split_int.
  destruct m; proc_step; cells; rewrite !to_uint8_idem. split; reflexivity.
Qed.

Lemma storedWord_powerOn (m : Machine) (address : Z) :
  storedWord (powerOn (EEPROM m)) address = storedWord m address.
Proof. rewrite !storedWord_bytes. reflexivity. Qed.

Lemma to_int_to_uint (s : Z) :
  -32768 <= s <= 32767 -> CInt.to_int (CInt.to_uint s) = s.
Proof.
  intros Hs. unfold CInt.to_int, CInt.to_uint.
  Z.div_mod_to_equations. lia.
Qed.

Lemma to_uint_sentinel (s : Z) :
  storable s -> (CInt.to_uint s =? 65535) = false.
Proof.
  intros [Hs Hne]. apply Z.eqb_neq. unfold CInt.to_uint.
  Z.div_mod_to_equations. lia.
Qed.

(** X6: speeds saved with [saveSpeedConfiguration] survive a power cycle:
    when both working speeds are [int] values other than -1 (the sentinel
    pattern), [setup] run on the EEPROM content left by the save loads
    exactly these speeds, as working values and as snapshot. *)
Theorem saved_speeds_survive_power_cycle (m : Machine) :
  storable (stepperTrackingSpeed m) ->
  storable (homeSpeed m) ->
  let e := EEPROM (state_after saveSpeedConfiguration m) in
  let m' := state_after setup (powerOn e) in
  stepperTrackingSpeed m' = stepperTrackingSpeed m
  /\ homeSpeed m' = homeSpeed m
  /\ initialStepperTrackingSpeed m' = stepperTrackingSpeed m
  /\ initialHomeSpeed m' = homeSpeed m.
Proof.
  intros Ht Hh e m'. subst m' e.
  rewrite setup_loads.
  destruct (readSpeedConfig_result
              (powerOn (EEPROM (state_after saveSpeedConfiguration m))))
    as (Rt & Rh & Rit & Rih).
  cbn zeta in Rt, Rh, Rit, Rih.
  rewrite !storedWord_powerOn in Rt, Rh, Rit, Rih.
  destruct (saved_words m) as [W1 W2].
  rewrite W1, W2 in Rt, Rh, Rit, Rih.
  rewrite (to_uint_sentinel _ Ht), (to_uint_sentinel _ Hh) in Rt, Rh, Rit, Rih.
  cbn [orb fst snd] in Rt, Rh, Rit, Rih.
  rewrite !(to_int_to_uint (stepperTrackingSpeed m)) in Rt, Rit by apply Ht.
  rewrite !(to_int_to_uint (homeSpeed m)) in Rh, Rih by apply Hh.
  auto.
Qed.

Lemma saved_speeds_survive_power_cycle_witness :
  let m := state_after
             (iterations [turn false 0; press 0; turn false 0; press 0])
             firstBoot in
  let m' := state_after setup
              (powerOn (EEPROM (state_after saveSpeedConfiguration m))) in
  (stepperTrackingSpeed m, homeSpeed m) = (1, 99)
  /\ stepperTrackingSpeed m' = stepperTrackingSpeed m
  /\ homeSpeed m' = homeSpeed m
  /\ initialStepperTrackingSpeed m' = stepperTrackingSpeed m
  /\ initialHomeSpeed m' = homeSpeed m.
Proof.
  split; [reflexivity|].
  apply (saved_speeds_survive_power_cycle
           (state_after
              (iterations [turn false 0; press 0; turn false 0; press 0])
              firstBoot)).
  - unfold storable. vm_compute. repeat split; discriminate.
  - unfold storable. vm_compute. repeat split; discriminate.
Defined.

(** ** The blink timer *)

(** X7: the timeout test is exact across the rollover of [millis()]: for a
    timestamp and a current time d milliseconds later, both taken modulo
    2^32, the 300 ms timeout has expired exactly when d >= 300. *)
Theorem timeout_check_survives_rollover (last d : Z) :
  0 <= last < 4294967296 ->
  0 <= d < 4294967296 ->
  checkTimeoutExpired (CInt.to_ulong (last + d)) last 300 = (300 <=? d).
Proof.
  intros Hlast Hd. unfold checkTimeoutExpired.
  replace (CInt.to_ulong (CInt.to_ulong (last + d) - last)) with d;
    [reflexivity|].
  unfold CInt.to_ulong. Z.div_mod_to_equations. lia.
Qed.

Lemma timeout_check_survives_rollover_witness :
  CInt.to_ulong (4294967000 + 400) = 104
  /\ checkTimeoutExpired (CInt.to_ulong (4294967000 + 400)) 4294967000 300
     = (300 <=? 400).
Proof.
  split; [reflexivity|].
  apply (timeout_check_survives_rollover 4294967000 400); lia.
Defined.

Lemma encoderPressed_blink (m : Machine) :
  editModeBlinkDark (state_after encoderPressed m) = editModeBlinkDark m
  /\ lastUpdateEditModeScreen (state_after encoderPressed m)
     = lastUpdateEditModeScreen m.
Proof. destruct m. proc_cases; split; reflexivity. Qed.

Lemma encoderRotated_blink (i : Inputs) (m : Machine) :
  editModeBlinkDark (state_after (encoderRotated i) m) = editModeBlinkDark m
  /\ lastUpdateEditModeScreen (state_after (encoderRotated i) m)
     = lastUpdateEditModeScreen m.
Proof. destruct m. proc_cases; split; reflexivity. Qed.

Lemma runTheStepper_blink (i : Inputs) (m : Machine) :
  editModeBlinkDark (state_after (runTheStepper i) m) = editModeBlinkDark m
  /\ lastUpdateEditModeScreen (state_after (runTheStepper i) m)
     = lastUpdateEditModeScreen m.
Proof. destruct m. proc_cases; split; reflexivity. Qed.

(** A quantity kept by both handlers is kept by the event phase. *)
Lemma dispatch_keeps {A : Type} (f : Machine -> A) (i : Inputs) (m : Machine) :
  (forall x, f (state_after encoderPressed x) = f x) ->
  (forall x, f (state_after (encoderRotated i) x) = f x) ->
  f (state_after (dispatch i) m) = f m.
Proof.
  intros Hpress Hturn. unfold dispatch. rewrite state_after_bind.
  assert (Hp : f (state_after (when (switchFell i) encoderPressed) m) = f m).
  { destruct (switchFell i); cbn [when]; [apply Hpress | reflexivity]. }
  destruct (clkFell i); cbn [when]; [rewrite Hturn|]; exact Hp.
Qed.

Lemma dispatch_blink (i : Inputs) (m : Machine) :
  editModeBlinkDark (state_after (dispatch i) m) = editModeBlinkDark m
  /\ lastUpdateEditModeScreen (state_after (dispatch i) m)
     = lastUpdateEditModeScreen m.
Proof.
  split; apply dispatch_keeps; intros x;
    first [apply encoderPressed_blink | apply encoderRotated_blink].
Qed.

(** X8: a loop iteration flips the blink phase, and restarts its timer,
    exactly when it is in edit mode once its events are handled and at
    least 300 ms have passed since the last flip; in normal mode, and
    before the timeout, both are left as they were. *)
Theorem blink_flips_only_when_editing_and_due (i : Inputs) (m : Machine) :
  let due := editMode (state_after (dispatch i) m)
             && checkTimeoutExpired (millisCheck i)
                  (lastUpdateEditModeScreen m) 300 in
  let m' := state_after (loop i) m in
  editModeBlinkDark m'
  = (if due then negb (editModeBlinkDark m) else editModeBlinkDark m)
  /\ lastUpdateEditModeScreen m'
     = (if due then CInt.to_ulong (millisStore i)
        else lastUpdateEditModeScreen m).
Proof.
  cbn zeta. rewrite loop_state. cbn zeta.
  destruct (dispatch_blink i m) as [Hdark Hlast].
  destruct (editMode (state_after (dispatch i) m)); cbn [andb].
  - rewrite <- Hdark, <- Hlast.
    generalize (state_after (dispatch i) m). intros m1.
    destruct m1. unfold editBlink. proc_cases; split; reflexivity.
  - destruct (runTheStepper_blink i (state_after (dispatch i) m)) as [-> ->].
    auto.
Qed.

(** ** The stepper and the display along a run *)

Ltac log_step := proc_step; cbv beta iota delta [commanded drawn fold_left].

Lemma commanded_app (s : option Z) (a b : list Call) :
  commanded s (a ++ b) = commanded (commanded s a) b.
Proof. unfold commanded. apply fold_left_app. Qed.

Lemma drawn_app (s : option Screen) (a b : list Call) :
  drawn s (a ++ b) = drawn (drawn s a) b.
Proof. unfold drawn. apply fold_left_app. Qed.

Lemma encoderPressed_speedInvariant (m : Machine) (s : option Z) :
  speedInvariant m s ->
  speedInvariant (state_after encoderPressed m)
                 (commanded s (calls_of encoderPressed m)).
Proof.
  unfold speedInvariant. destruct m. log_step.
  repeat (split_if; log_step); bool_hyps; intros [He Hm];
    (split; [intros; try discriminate; auto; try lia|]); auto.
  all: try (destruct Hm as [Hm | [[Hm ?] | [Hm ?]]]; lia).
Qed.

Lemma encoderRotated_speedInvariant (i : Inputs) (m : Machine) (s : option Z) :
  speedInvariant m s ->
  speedInvariant (state_after (encoderRotated i) m)
                 (commanded s (calls_of (encoderRotated i) m)).
Proof.
  unfold speedInvariant. destruct m. log_step.
  repeat (split_if; log_step); bool_hyps; intros [He Hm]; split; auto.
Qed.

Lemma runTheStepper_speedInvariant (i : Inputs) (m : Machine) (s : option Z) :
  speedInvariant m s ->
  speedInvariant (state_after (runTheStepper i) m)
                 (commanded s (calls_of (runTheStepper i) m)).
Proof.
  unfold speedInvariant. destruct m. log_step.
  repeat (split_if; log_step); bool_hyps; intros [He Hm]; split; auto.
Qed.

Lemma editBlink_speedInvariant (i : Inputs) (m : Machine) (s : option Z) :
  speedInvariant m s ->
  speedInvariant (state_after (editBlink i) m)
                 (commanded s (calls_of (editBlink i) m)).
Proof.
  unfold speedInvariant, editBlink. destruct m. log_step.
  repeat (split_if; log_step); bool_hyps; intros [He Hm]; split; auto.
Qed.

Section AlongRuns.

Context {S : Type} (summary : S -> list Call -> S) (P : Machine -> S -> Prop).

Hypothesis summary_app :
  forall s a b, summary s (a ++ b) = summary (summary s a) b.
Hypothesis summary_nil : forall s, summary s [] = s.

Hypothesis press_ok : maintains summary P encoderPressed.
Hypothesis turn_ok : forall i, maintains summary P (encoderRotated i).
Hypothesis blink_ok : forall i, maintains summary P (editBlink i).
Hypothesis step_ok : forall i, maintains summary P (runTheStepper i).

Lemma maintains_loop (i : Inputs) : maintains summary P (loop i).
Proof.
  intros m s Hm.
  rewrite loop_state, loop_calls. cbn zeta. rewrite summary_app.
  assert (Hd : P (state_after (dispatch i) m) (summary s (calls_of (dispatch i) m))).
  { unfold dispatch. rewrite state_after_bind, calls_of_bind, summary_app.
    assert (Hp : P (state_after (when (switchFell i) encoderPressed) m)
                   (summary s (calls_of (when (switchFell i) encoderPressed) m))).
    { destruct (switchFell i); cbn [when].
      - apply press_ok, Hm.
      - unfold calls_of, state_after, ret. cbn [fst snd].
        rewrite summary_nil. exact Hm. }
    destruct (clkFell i); cbn [when].
    - apply turn_ok, Hp.
    - unfold calls_of at 1, state_after at 1, ret. cbn [fst snd].
      rewrite summary_nil. exact Hp. }
  destruct (editMode (state_after (dispatch i) m)).
  - apply blink_ok, Hd.
  - apply step_ok, Hd.
Qed.

Lemma maintains_iterations (inputs : list Inputs) :
  maintains summary P (iterations inputs).
Proof.
  induction inputs as [| i rest IH]; intros m s Hm.
  - unfold calls_of, state_after. cbn [iterations ret fst snd].
    rewrite summary_nil. exact Hm.
  - cbn [iterations]. rewrite state_after_bind, calls_of_bind, summary_app.
    apply IH, maintains_loop, Hm.
Qed.

End AlongRuns.

(** X9: along every run from power-on, a motor that is tracking was last
    given the current tracking speed by [stepper.setSpeed], and a motor that
    is homing the negated current home speed: a running motor never runs at
    a stale speed. *)
Theorem running_motor_has_the_set_speed (e : Z -> Z) (inputs : list Inputs) :
  let run := setup ;; iterations inputs in
  let m := state_after run (powerOn e) in
  let speed := commanded None (calls_of run (powerOn e)) in
  match motorState m with
  | Idle => motorRunning m = 0
  | Tracking => speed = Some (stepperTrackingSpeed m)
  | Homing => speed = Some (CInt.to_int (- homeSpeed m))
  end.
Proof.
  cbn zeta. rewrite state_after_bind, calls_of_bind, commanded_app.
  assert (Hboot : speedInvariant (state_after setup (powerOn e))
                    (commanded None (calls_of setup (powerOn e)))).
  { destruct (setup_state e) as (He & _ & Hm & _).
    split; [rewrite He; discriminate | left; exact Hm]. }
  pose proof (maintains_iterations commanded speedInvariant commanded_app
                (fun s => eq_refl)
                encoderPressed_speedInvariant encoderRotated_speedInvariant
                editBlink_speedInvariant runTheStepper_speedInvariant
                inputs _ _ Hboot) as [_ H].
  unfold motorState.
  destruct H as [H | [[H Hs] | [H Hs]]]; rewrite H; cbn; auto.
Qed.

Lemma running_motor_has_the_set_speed_example :
  let inputs := [turn false 0; press 0; turn true 0; press 0;
                 turn true 0; turn true 0; press 0] in
  let run := setup ;; iterations inputs in
  motorState (state_after run (powerOn erased)) = Homing
  /\ commanded None (calls_of run (powerOn erased)) = Some (-101).
Proof. split; reflexivity. Qed.

Lemma encoderPressed_screenInvariant :
  maintains drawn screenInvariant encoderPressed.
Proof.
  unfold maintains, screenInvariant. intros m s _. destruct m. log_step.
  repeat (split_if; log_step); reflexivity.
Qed.

Lemma encoderRotated_screenInvariant (i : Inputs) :
  maintains drawn screenInvariant (encoderRotated i).
Proof.
  unfold maintains, screenInvariant. intros m s _. destruct m. log_step.
  repeat (split_if; log_step); reflexivity.
Qed.

Lemma runTheStepper_screenInvariant (i : Inputs) :
  maintains drawn screenInvariant (runTheStepper i).
Proof.
  unfold maintains, screenInvariant. intros m s ->. destruct m. log_step.
  repeat (split_if; log_step); reflexivity.
Qed.

Lemma editBlink_screenInvariant (i : Inputs) :
  maintains drawn screenInvariant (editBlink i).
Proof.
  unfold maintains, screenInvariant, editBlink. intros m s ->. destruct m. log_step.
  repeat (split_if; log_step); reflexivity.
Qed.

(** X10: along every run from power-on, the screen last drawn is the screen
    of the current state: no event, limit stop or blink changes what the
    screen depends on without redrawing it. *)
Theorem screen_shows_the_current_state (e : Z -> Z) (inputs : list Inputs) :
  let run := setup ;; iterations inputs in
  drawn None (calls_of run (powerOn e))
  = Some (screenOf (state_after run (powerOn e))).
Proof.
  cbn zeta. rewrite state_after_bind, calls_of_bind, drawn_app.
  apply (maintains_iterations drawn screenInvariant drawn_app
           (fun s => eq_refl)
           encoderPressed_screenInvariant encoderRotated_screenInvariant
           editBlink_screenInvariant runTheStepper_screenInvariant).
  unfold screenInvariant, setup.
  rewrite state_after_bind, calls_of_bind, drawn_app.
  generalize (drawn None (calls_of readSpeedConfigFromEeprom (powerOn e))).
  generalize (state_after readSpeedConfigFromEeprom (powerOn e)).
  intros m1 s1. destruct m1. log_step. reflexivity.
Qed.

(** ** Stepping and the limit switches *)



Lemma never_steps_into_an_active_limit_example :
  let homeActive := mkInputs true false
                      (fun p => match p with HOME_SWITCH_PIN => false | _ => true end)
                      0 0 in
  let m := state_after (loop (turn true 0)) firstBoot in
  currentPageIndex m = 4
  /\ motorState (state_after (loop homeActive) m) = Idle
  /\ steppingCalls (calls_of (loop homeActive) m) = 0%nat.
Proof. repeat split; reflexivity. Qed.

(** ** Operating the menu *)

(** X12: on the Start/Stop page, outside edit mode, the button starts
    tracking from Idle and stops a motor running in either direction
    (homing too); either way the stepper is given the current tracking
    speed, and the page and the configuration are left alone. *)
Theorem start_stop_button_toggles (m : Machine) :
  editMode m = false ->
  currentPageIndex m = 3 ->
  let m' := state_after encoderPressed m in
  motorState m' = match motorState m with Idle => Tracking | _ => Idle end
  /\ commanded None (calls_of encoderPressed m)
     = Some (stepperTrackingSpeed m)
  /\ editMode m' = false
  /\ currentPageIndex m' = 3
  /\ isDirty m' = isDirty m.
Proof.
  unfold motorState. destruct m. log_step. intros -> ->. log_step.
  repeat (split_if; log_step); bool_hyps; repeat split; try reflexivity; lia.
Qed.

Lemma start_stop_button_toggles_witness :
  let m := state_after (iterations [turn true 0; press 0; turn false 0]) firstBoot in
  let m' := state_after encoderPressed m in
  motorState m = Homing
  /\ motorState m' = Idle
  /\ commanded None (calls_of encoderPressed m) = Some (stepperTrackingSpeed m)
  /\ editMode m' = false
  /\ currentPageIndex m' = 3
  /\ isDirty m' = isDirty m.
Proof.
  split; [reflexivity|].
  apply (start_stop_button_toggles
           (state_after (iterations [turn true 0; press 0; turn false 0]) firstBoot));
    reflexivity.
Defined.

(** One detent outside edit mode, on a page of the valid range. *)
Lemma detent_page (i : Inputs) (m : Machine) :
  editMode m = false ->
  1 <= currentPageIndex m <= (if isDirty m then 5 else 4) ->
  let lastPage := if isDirty m then 5 else 4 in
  let m' := state_after (encoderRotated i) m in
  currentPageIndex m' =
    (if level i DT_PIN
     then (if currentPageIndex m =? lastPage then 1 else currentPageIndex m + 1)
     else (if currentPageIndex m =? 1 then lastPage else currentPageIndex m - 1))
  /\ isDirty m' = isDirty m
  /\ editMode m' = false.
Proof.
  destruct m. proc_step. intros -> Hpage. revert Hpage.
  unfold CInt.to_uint8.
  repeat (split_if; proc_step); bool_hyps; intros; repeat split; try reflexivity.
  all: try (exfalso; Z.div_mod_to_equations; lia).
  all: try (Z.div_mod_to_equations; lia).
Qed.

(** X13: outside edit mode, on a page of the valid range, a clockwise detent
    followed by an anticlockwise one, or the other way round, comes back to
    the same page. *)
Theorem opposite_detents_cancel (cw ccw : Inputs) (m : Machine) :
  level cw DT_PIN = true ->
  level ccw DT_PIN = false ->
  editMode m = false ->
  1 <= currentPageIndex m <= (if isDirty m then 5 else 4) ->
  currentPageIndex
    (state_after (encoderRotated ccw) (state_after (encoderRotated cw) m))
  = currentPageIndex m
  /\ currentPageIndex
       (state_after (encoderRotated cw) (state_after (encoderRotated ccw) m))
     = currentPageIndex m.
Proof.
  intros Hcw Hccw Hmode Hpage.
  destruct (detent_page cw m Hmode Hpage) as (Pcw & Dcw & Ecw).
  destruct (detent_page ccw m Hmode Hpage) as (Pccw & Dccw & Eccw).
  cbn zeta in Pcw, Pccw. rewrite Hcw in Pcw. rewrite Hccw in Pccw.
  pose proof (detent_page ccw (state_after (encoderRotated cw) m) Ecw) as P1.
  pose proof (detent_page cw (state_after (encoderRotated ccw) m) Eccw) as P2.
  cbn zeta in P1, P2.
  rewrite Hccw, Dcw, Pcw in P1. rewrite Hcw, Dccw, Pccw in P2.
  assert (Hlast : (if isDirty m then 5 else 4) = 4
                  \/ (if isDirty m then 5 else 4) = 5)
    by (destruct (isDirty m); auto).
  revert Hpage P1 P2 Hlast.
  generalize (if isDirty m then 5 else 4). intros lastPage Hpage P1 P2 Hlast.
  split.
  - destruct P1 as (-> & _).
    + destruct (Z.eqb_spec (currentPageIndex m) lastPage); lia.
    + destruct (Z.eqb_spec (currentPageIndex m) lastPage);
        [rewrite Z.eqb_refl; lia|].
      destruct (Z.eqb_spec (currentPageIndex m + 1) 1); lia.
  - destruct P2 as (-> & _).
    + destruct (Z.eqb_spec (currentPageIndex m) 1); lia.
    + destruct (Z.eqb_spec (currentPageIndex m) 1);
        [rewrite Z.eqb_refl; lia|].
      destruct (Z.eqb_spec (currentPageIndex m - 1) lastPage); lia.
Qed.

Lemma opposite_detents_cancel_witness :
  let m := state_after (loop (turn true 0)) firstBoot in
  currentPageIndex m = 4
  /\ currentPageIndex (state_after (encoderRotated (turn true 0)) m) = 1
  /\ currentPageIndex
       (state_after (encoderRotated (turn false 0))
          (state_after (encoderRotated (turn true 0)) m))
     = currentPageIndex m
  /\ currentPageIndex
       (state_after (encoderRotated (turn true 0))
          (state_after (encoderRotated (turn false 0)) m))
     = currentPageIndex m.
Proof.
  split; [reflexivity|]. split; [reflexivity|].
  apply (opposite_detents_cancel (turn true 0) (turn false 0)
           (state_after (loop (turn true 0)) firstBoot)).
  - reflexivity.
  - reflexivity.
  - reflexivity.
  - vm_compute. split; discriminate.
Defined.

(** ** Editing, detent by detent *)

Lemma edit_detent (i : Inputs) (f : SpeedWord) (m : Machine) :
  editMode m = true ->
  currentPageIndex m = speedPage f ->
  speedsInRange m ->
  let m' := state_after (encoderRotated i) m in
  loadedSpeed f m'
  = clampSpeed (loadedSpeed f m + (if level i DT_PIN then 1 else -1))
  /\ loadedSpeed (otherWord f) m' = loadedSpeed (otherWord f) m
  /\ editMode m' = true
  /\ currentPageIndex m' = speedPage f
  /\ initialStepperTrackingSpeed m' = initialStepperTrackingSpeed m
  /\ initialHomeSpeed m' = initialHomeSpeed m.
Proof.
  unfold speedsInRange, speedPage.
  destruct f, m; cbn [loadedSpeed otherWord]; proc_step; intros -> -> [Ht Hh].
  all: proc_step; destruct (level i DT_PIN); cells; proc_step.
  all: rewrite to_int_small by lia; repeat split; reflexivity.
Qed.

Lemma clampSpeed_max_min (v : Z) : clampSpeed v = Z.max 1 (Z.min 1000 v).
Proof.
  unfold clampSpeed.
  destruct (Z.ltb_spec v 1); [lia|].
  destruct (Z.ltb_spec 1000 v); lia.
Qed.

(** X14: while a speed is edited, opposite detents cancel except against a
    bound: up then down restores the speed unless it was 1000 (it ends at
    999), down then up restores it unless it was 1 (it ends at 2); and
    whenever the speed is restored, so is the dirty flag. *)
Theorem edit_detents_cancel_inside_the_range
  (up down : Inputs) (f : SpeedWord) (m : Machine) :
  level up DT_PIN = true ->
  level down DT_PIN = false ->
  editMode m = true ->
  currentPageIndex m = speedPage f ->
  speedsInRange m ->
  let upDown := state_after (encoderRotated down) (state_after (encoderRotated up) m) in
  let downUp := state_after (encoderRotated up) (state_after (encoderRotated down) m) in
  loadedSpeed f upDown = (if loadedSpeed f m =? 1000 then 999 else loadedSpeed f m)
  /\ loadedSpeed f downUp = (if loadedSpeed f m =? 1 then 2 else loadedSpeed f m)
  /\ (loadedSpeed f m < 1000 -> isDirty upDown = isDirty m)
  /\ (1 < loadedSpeed f m -> isDirty downUp = isDirty m).
Proof.
  intros Hup Hdown Hedit Hpage Hrange.
  assert (Hf : 1 <= loadedSpeed f m <= 1000)
    by (destruct f; apply Hrange).
  assert (Hstep : forall i m0,
            editMode m0 = true -> currentPageIndex m0 = speedPage f ->
            speedsInRange m0 ->
            speedsInRange (state_after (encoderRotated i) m0)).
  { intros i m0 E0 P0 R0.
    destruct (edit_detent i f m0 E0 P0 R0) as (S1 & S2 & _).
    cbn zeta in S1, S2. unfold speedsInRange in *.
    destruct f; cbn [loadedSpeed otherWord] in S1, S2; rewrite S1, S2;
      split; try apply clampSpeed_range; apply R0. }
  destruct (edit_detent up f m Hedit Hpage Hrange)
    as (U1 & U2 & U3 & U4 & U5 & U6).
  destruct (edit_detent down f m Hedit Hpage Hrange)
    as (D1 & D2 & D3 & D4 & D5 & D6).
  destruct (edit_detent down f _ U3 U4 (Hstep up m Hedit Hpage Hrange))
    as (UD1 & UD2 & _ & _ & UD5 & UD6).
  destruct (edit_detent up f _ D3 D4 (Hstep down m Hedit Hpage Hrange))
    as (DU1 & DU2 & _ & _ & DU5 & DU6).
  cbn zeta in *. rewrite Hup in *. rewrite Hdown in *.
  rewrite U1 in UD1. rewrite D1 in DU1. rewrite U2 in UD2. rewrite D2 in DU2.
  rewrite U5 in UD5. rewrite U6 in UD6. rewrite D5 in DU5. rewrite D6 in DU6.
  assert (Eud : loadedSpeed f
                  (state_after (encoderRotated down)
                     (state_after (encoderRotated up) m))
                = (if loadedSpeed f m =? 1000 then 999 else loadedSpeed f m)).
  { rewrite UD1, !clampSpeed_max_min.
    destruct (Z.eqb_spec (loadedSpeed f m) 1000); lia. }
  assert (Edu : loadedSpeed f
                  (state_after (encoderRotated up)
                     (state_after (encoderRotated down) m))
                = (if loadedSpeed f m =? 1 then 2 else loadedSpeed f m)).
  { rewrite DU1, !clampSpeed_max_min.
    destruct (Z.eqb_spec (loadedSpeed f m) 1); lia. }
  split; [exact Eud|]. split; [exact Edu|]. split.
  - intros Hlt. destruct (Z.eqb_spec (loadedSpeed f m) 1000); [lia|].
    unfold isDirty. destruct f; cbn [loadedSpeed otherWord] in *;
      rewrite Eud, UD2, UD5, UD6; reflexivity.
  - intros Hgt. destruct (Z.eqb_spec (loadedSpeed f m) 1); [lia|].
    unfold isDirty. destruct f; cbn [loadedSpeed otherWord] in *;
      rewrite Edu, DU2, DU5, DU6; reflexivity.
Qed.

Lemma edit_detents_cancel_inside_the_range_witness :
  let m := state_after (iterations [turn false 0; press 0]) firstBoot in
  let upDown := state_after (encoderRotated (turn false 0))
                  (state_after (encoderRotated (turn true 0)) m) in
  let downUp := state_after (encoderRotated (turn true 0))
                  (state_after (encoderRotated (turn false 0)) m) in
  loadedSpeed HomeWord m = 100
  /\ homeSpeed (state_after (encoderRotated (turn true 0)) m) = 101
  /\ loadedSpeed HomeWord upDown
     = (if loadedSpeed HomeWord m =? 1000 then 999 else loadedSpeed HomeWord m)
  /\ loadedSpeed HomeWord downUp
     = (if loadedSpeed HomeWord m =? 1 then 2 else loadedSpeed HomeWord m)
  /\ (loadedSpeed HomeWord m < 1000 -> isDirty upDown = isDirty m)
  /\ (1 < loadedSpeed HomeWord m -> isDirty downUp = isDirty m).
Proof.
  split; [reflexivity|]. split; [reflexivity|].
  apply (edit_detents_cancel_inside_the_range (turn true 0) (turn false 0) HomeWord
           (state_after (iterations [turn false 0; press 0]) firstBoot)).
  - reflexivity.
  - reflexivity.
  - reflexivity.
  - reflexivity.
  - unfold speedsInRange. vm_compute. repeat split; discriminate.
Defined.

(** ** After Save *)

Lemma save_press_state (m : Machine) :
  editMode m = false ->
  currentPageIndex m = 5 ->
  let m' := state_after encoderPressed m in
  editMode m' = false
  /\ currentPageIndex m' = 0
  /\ isDirty m' = false
  /\ motorRunning m' = motorRunning m
  /\ stepperTrackingSpeed m' = stepperTrackingSpeed m
  /\ homeSpeed m' = homeSpeed m.
Proof.
  destruct m. proc_step. intros -> ->. proc_step.
  rewrite !Z.eqb_refl. repeat split; reflexivity.
Qed.

Lemma page_zero_press (m : Machine) :
  editMode m = false ->
  currentPageIndex m = 0 ->
  let m' := state_after encoderPressed m in
  editMode m' = false
  /\ currentPageIndex m' = 0
  /\ motorRunning m' = motorRunning m
  /\ stepperTrackingSpeed m' = stepperTrackingSpeed m
  /\ homeSpeed m' = homeSpeed m
  /\ storeKept m m'.
Proof.
  unfold storeKept. destruct m. proc_step. intros -> ->. proc_step.
  repeat split; reflexivity.
Qed.

(** X15: after Save is pressed on the Save page no page is selected: the
    screen draws no marker, a further press changes nothing (no edit mode,
    no motor command, no write), and the next detent, in either direction,
    selects page 1 of a clean four-page menu. *)
Theorem after_save_no_page_until_next_detent (i : Inputs) (m : Machine) :
  editMode m = false ->
  currentPageIndex m = 5 ->
  let saved := state_after encoderPressed m in
  let again := state_after encoderPressed saved in
  let turned := state_after (encoderRotated i) saved in
  underlined (screenOf saved) = None
  /\ (editMode again = false
      /\ currentPageIndex again = 0
      /\ motorRunning again = motorRunning saved
      /\ (forall a, EEPROM again a = EEPROM saved a))
  /\ currentPageIndex turned = 1
  /\ isDirty turned = false.
Proof.
  intros Hmode Hpage saved again turned.
  destruct (save_press_state m Hmode Hpage) as (S1 & S2 & S3 & _).
  fold saved in S1, S2, S3.
  destruct (page_zero_press saved S1 S2) as (A1 & A2 & A3 & _ & _ & (A4 & _)).
  fold again in A1, A2, A3, A4.
  split.
  { unfold screenOf. cbn [underlined]. rewrite S1, S2. reflexivity. }
  split; [auto|].
  split; [apply page_zero_next_detent; assumption|].
  subst turned.
  apply isDirty_false_iff in S3. apply isDirty_false_iff.
  destruct (encoderRotated_storeKept i saved) as (_ & K1 & K2).
  rewrite K1, K2.
  revert S1 S3. generalize saved. intros m0 E0 D0.
  destruct m0. revert E0 D0. proc_step. intros -> D0.
  repeat (split_if; proc_step); exact D0.
Qed.

Lemma after_save_no_page_until_next_detent_witness :
  let m := state_after
             (iterations [turn false 0; turn false 0; press 0;
                          turn true 0; press 0; turn false 0])
             firstBoot in
  let saved := state_after encoderPressed m in
  let again := state_after encoderPressed saved in
  let turned := state_after (encoderRotated (turn false 0)) saved in
  underlined (screenOf saved) = None
  /\ (editMode again = false
      /\ currentPageIndex again = 0
      /\ motorRunning again = motorRunning saved
      /\ (forall a, EEPROM again a = EEPROM saved a))
  /\ currentPageIndex turned = 1
  /\ isDirty turned = false.
Proof.
  apply (after_save_no_page_until_next_detent (turn false 0)
           (state_after
              (iterations [turn false 0; turn false 0; press 0;
                           turn true 0; press 0; turn false 0])
              firstBoot)); reflexivity.
Defined.

(** ** What changes the working speeds *)

Lemma encoderPressed_speeds (m : Machine) :
  stepperTrackingSpeed (state_after encoderPressed m) = stepperTrackingSpeed m
  /\ homeSpeed (state_after encoderPressed m) = homeSpeed m.
Proof. destruct m. proc_cases; split; reflexivity. Qed.

Lemma runTheStepper_speeds (i : Inputs) (m : Machine) :
  stepperTrackingSpeed (state_after (runTheStepper i) m) = stepperTrackingSpeed m
  /\ homeSpeed (state_after (runTheStepper i) m) = homeSpeed m.
Proof. destruct m. proc_cases; split; reflexivity. Qed.

Lemma editBlink_speeds (i : Inputs) (m : Machine) :
  stepperTrackingSpeed (state_after (editBlink i) m) = stepperTrackingSpeed m
  /\ homeSpeed (state_after (editBlink i) m) = homeSpeed m.
Proof. destruct m. unfold editBlink. proc_cases; split; reflexivity. Qed.

Lemma encoderRotated_speeds (i : Inputs) (m : Machine) :
  (editMode m = true /\ (currentPageIndex m = 1 \/ currentPageIndex m = 2))
  \/ (stepperTrackingSpeed (state_after (encoderRotated i) m)
      = stepperTrackingSpeed m
      /\ homeSpeed (state_after (encoderRotated i) m) = homeSpeed m).
Proof. destruct m. proc_cases; bool_hyps; auto. Qed.

(** X16: a loop iteration changes a working speed only when the encoder is
    turned while, after the button event of the same iteration, the sketch
    is in edit mode on one of the two speed pages; the button, the blink
    timer and the stepper never change a working speed. *)
Theorem working_speeds_change_only_by_editing (i : Inputs) (m : Machine) :
  let pressed := if switchFell i then state_after encoderPressed m else m in
  let m' := state_after (loop i) m in
  (clkFell i = true
   /\ editMode pressed = true
   /\ (currentPageIndex pressed = 1 \/ currentPageIndex pressed = 2))
  \/ (stepperTrackingSpeed m' = stepperTrackingSpeed m
      /\ homeSpeed m' = homeSpeed m).
Proof.
  cbn zeta. rewrite loop_state. cbn zeta.
  set (pressed := if switchFell i then state_after encoderPressed m else m).
  assert (Hp : stepperTrackingSpeed pressed = stepperTrackingSpeed m
               /\ homeSpeed pressed = homeSpeed m).
  { subst pressed. destruct (switchFell i);
      [apply encoderPressed_speeds | auto]. }
  assert (Hd : state_after (dispatch i) m
               = if clkFell i then state_after (encoderRotated i) pressed
                 else pressed).
  { unfold dispatch. rewrite state_after_bind. subst pressed.
    destruct (switchFell i), (clkFell i); reflexivity. }
  assert (Htail : forall m1,
            stepperTrackingSpeed
              (if editMode m1 then state_after (editBlink i) m1
               else state_after (runTheStepper i) m1) = stepperTrackingSpeed m1
            /\ homeSpeed
                 (if editMode m1 then state_after (editBlink i) m1
                  else state_after (runTheStepper i) m1) = homeSpeed m1).
  { intros m1. destruct (editMode m1);
      [apply editBlink_speeds | apply runTheStepper_speeds]. }
  destruct (Htail (state_after (dispatch i) m)) as [-> ->].
  rewrite Hd. destruct Hp as [Hpt Hph].
  destruct (clkFell i).
  - destruct (encoderRotated_speeds i pressed) as [[He Hpg] | [Ht Hh]].
    + left. auto.
    + right. rewrite Ht, Hh. auto.
  - right. auto.
Qed.

(** ** Return-Home at the home switch *)

(** X17: Return-Home pressed (page 4, normal mode, no detent in the same
    iteration): the stepper is given the negated home speed; when the home
    switch is already active the motor is back to Idle at the end of that
    very iteration without a single step, otherwise the motor is homing and
    the iteration issues its first step. *)
Theorem return_home_at_the_home_switch (i : Inputs) (m : Machine) :
  switchFell i = true ->
  clkFell i = false ->
  editMode m = false ->
  currentPageIndex m = 4 ->
  let m' := state_after (loop i) m in
  let calls := calls_of (loop i) m in
  commanded None calls = Some (CInt.to_int (- homeSpeed m))
  /\ (if level i HOME_SWITCH_PIN
      then motorState m' = Homing /\ steppingCalls calls = 1%nat
      else motorState m' = Idle /\ steppingCalls calls = 0%nat).
Proof.
  intros Hsf Hcf. unfold motorState, loop, calls_of, state_after.
  rewrite Hsf, Hcf. destruct m. log_step. intros -> ->. log_step.
  destruct (level i HOME_SWITCH_PIN); log_step.
  all: repeat (split_if; log_step); bool_hyps; try lia.
  all: repeat split; reflexivity.
Qed.

Lemma return_home_at_the_home_switch_witness :
  let atHome := mkInputs true false
                  (fun p => match p with HOME_SWITCH_PIN => false | _ => true end)
                  0 0 in
  let m := state_after (loop (turn true 0)) firstBoot in
  commanded None (calls_of (loop atHome) m) = Some (-100)
  /\ motorState (state_after (loop atHome) m) = Idle
  /\ steppingCalls (calls_of (loop atHome) m) = 0%nat.
Proof.
  apply (return_home_at_the_home_switch
           (mkInputs true false
              (fun p => match p with HOME_SWITCH_PIN => false | _ => true end)
              0 0)
           (state_after (loop (turn true 0)) firstBoot)); reflexivity.
Defined.

(** ** Start-up *)


(** ** The text buffers of the screen *)

Lemma printedLength_fits (width v : Z) :
  0 <= width <= 4 ->
  (printedLength width v + 1 <=? 5) = (-999 <=? v) && (v <=? 9999).
Proof.
  intros Hw. unfold printedLength, decimalDigits.
  repeat match goal with
  | |- context [?a <? ?b] => destruct (Z.ltb_spec a b)
  end.
  all: destruct (Z.leb_spec (-999) v), (Z.leb_spec v 9999); cbn [andb].
  all: first [apply Z.leb_le | apply Z.leb_gt]; lia.
Qed.

(** X19: along every run from an EEPROM that holds a sentinel or two words
    in [1,1000], the two texts [updateMainScreen] formats with [sprintf]
    fit their 5-byte buffers, terminating NUL included. *)
Theorem screen_texts_fit_their_buffers (e : Z -> Z) (inputs : list Inputs) :
  usableStore e ->
  let m := state_after (iterations inputs) (state_after setup (powerOn e)) in
  textsFit m = true.
Proof.
  intros Hstore m.
  destruct (iterations_configInRange inputs _ (setup_configInRange e Hstore))
    as ((Ht & Hh) & _).
  fold m in Ht, Hh. unfold textsFit.
  rewrite !printedLength_fits by lia.
  apply andb_true_intro; split; apply andb_true_intro; split;
    apply Z.leb_le; lia.
Qed.

Lemma screen_texts_fit_their_buffers_witness :
  let e := fun a : Z => if a =? 1 then 232 else if a =? 3 then 7 else if a =? 0 then 3 else 0 in
  let m := state_after (iterations [press 0]) (state_after setup (powerOn e)) in
  stepperTrackingSpeed m = 1000
  /\ printedLength 2 (stepperTrackingSpeed m) = 4
  /\ textsFit m = true.
Proof.
  split; [reflexivity|]. split; [reflexivity|].
  apply (screen_texts_fit_their_buffers
           (fun a : Z => if a =? 1 then 232 else if a =? 3 then 7 else if a =? 0 then 3 else 0)
           [press 0]).
  unfold usableStore. vm_compute. right. right. repeat split; discriminate.
Defined.

(** The buffers are not protected against other stored values: a stored
    tracking speed of 10000 is loaded as it is and needs six bytes. *)
Lemma screen_text_overflows_on_large_stored_speed :
  let e := fun a : Z => if a =? 0 then 39 else if a =? 1 then 16 else 0 in
  let m := state_after setup (powerOn e) in
  stepperTrackingSpeed m = 10000
  /\ printedLength 2 (stepperTrackingSpeed m) + 1 = 6
  /\ textsFit m = false.
Proof. repeat split; reflexivity. Qed.

(** * The first revision *)

Ltac legacy_step :=
  cbv beta iota zeta delta
    [Legacy.loop Legacy.encoderPressed Legacy.encoderRotated
     Legacy.runTheStepper Legacy.startStopButtonPressed
     Legacy.returnHomePressed Legacy.updateMainScreen Legacy.commanded
     Legacy.editMode Legacy.lastUpdateEditModeScreen Legacy.editModeBlinkDark
     Legacy.stepperSpeed Legacy.motorRunning Legacy.currentPageIndex
     Legacy.HOME_MOTOR_SPEED fold_left app fst snd].

(** X20: in the first revision a detent in edit mode never lowers the
    speed: [change] is a [uint8_t], so the anticlockwise -1 is 255 and the
    speed goes up by 255 (by 1 clockwise), clamped at 1000. *)
Theorem legacy_edit_detent_never_lowers_speed (i : Inputs) (m : Legacy.Machine) :
  Legacy.editMode m = true ->
  Legacy.currentPageIndex m = 1 ->
  1 <= Legacy.stepperSpeed m <= 1000 ->
  Legacy.stepperSpeed (fst (Legacy.encoderRotated i m))
  = Z.min 1000 (Legacy.stepperSpeed m + (if level i DT_PIN then 1 else 255)).
Proof.
  destruct m as [em last dark speed running page].
  legacy_step. intros -> -> Hs. legacy_step.
  rewrite clampSpeed_max_min. unfold Legacy.changeOf.
  change (CInt.to_uint8 (-1)) with 255.
  destruct (level i DT_PIN); cbv iota; rewrite to_int_small by lia;
    change (1 =? 1) with true; legacy_step; lia.
Qed.

Lemma legacy_edit_detent_never_lowers_speed_witness :
  let m := fst (Legacy.run [turn true 0; press 0]) in
  Legacy.stepperSpeed m = 1
  /\ Legacy.stepperSpeed (fst (Legacy.encoderRotated (turn false 0) m)) = 256
  /\ Legacy.stepperSpeed (fst (Legacy.encoderRotated (turn false 0) m))
     = Z.min 1000 (Legacy.stepperSpeed m
                   + (if level (turn false 0) DT_PIN then 1 else 255)).
Proof.
  split; [reflexivity|]. split; [reflexivity|].
  apply (legacy_edit_detent_never_lowers_speed (turn false 0)
           (fst (Legacy.run [turn true 0; press 0]))).
  - reflexivity.
  - reflexivity.
  - vm_compute. split; discriminate.
Defined.

(** X21: in the first revision the same 255 still navigates: outside edit
    mode the page index wraps as a [uint8_t], so the three pages cycle in
    both directions, and from the index 0 the sketch starts with, either
    direction selects page 1. *)
Theorem legacy_pages_cycle_over_three (i : Inputs) (m : Legacy.Machine) :
  Legacy.editMode m = false ->
  0 <= Legacy.currentPageIndex m <= 3 ->
  Legacy.currentPageIndex (fst (Legacy.encoderRotated i m))
  = (if level i DT_PIN
     then (if Legacy.currentPageIndex m =? 3 then 1
           else Legacy.currentPageIndex m + 1)
     else (if Legacy.currentPageIndex m =? 0 then 1
           else if Legacy.currentPageIndex m =? 1 then 3
           else Legacy.currentPageIndex m - 1)).
Proof.
  destruct m as [em last dark speed running page].
  legacy_step. intros -> Hp. legacy_step.
  unfold Legacy.changeOf.
  assert (Hcases : page = 0 \/ page = 1 \/ page = 2 \/ page = 3) by lia.
  destruct (level i DT_PIN);
    destruct Hcases as [-> | [-> | [-> | ->]]]; reflexivity.
Qed.

Lemma legacy_pages_cycle_over_three_witness :
  let m := fst (Legacy.run [turn true 0]) in
  Legacy.currentPageIndex m = 1
  /\ Legacy.currentPageIndex (fst (Legacy.encoderRotated (turn false 0) m)) = 3.
Proof.
  split; [reflexivity|].
  apply (legacy_pages_cycle_over_three (turn false 0)
           (fst (Legacy.run [turn true 0]))).
  - reflexivity.
  - vm_compute. split; discriminate.
Defined.

Lemma legacy_commanded_app (s : option Z) (a b : list Legacy.Call) :
  Legacy.commanded s (a ++ b) = Legacy.commanded (Legacy.commanded s a) b.
Proof. unfold Legacy.commanded. apply fold_left_app. Qed.

Lemma legacy_loop_commanded (i : Inputs) (m : Legacy.Machine) (s : option Z) :
  Legacy.commanded s (snd (Legacy.loop i m)) = s
  \/ Legacy.commanded s (snd (Legacy.loop i m)) = Some (-500).
Proof.
  destruct m. legacy_step.
  repeat (split_if; legacy_step); auto.
Qed.

Lemma legacy_iterations_commanded
  (inputs : list Inputs) (m : Legacy.Machine) (s : option Z) :
  Legacy.commanded s (snd (Legacy.iterations inputs m)) = s
  \/ Legacy.commanded s (snd (Legacy.iterations inputs m)) = Some (-500).
Proof.
  revert m s. induction inputs as [| i rest IH]; intros m s.
  - left. reflexivity.
  - cbn [Legacy.iterations].
    pose proof (legacy_loop_commanded i m s) as Hloop.
    destruct (Legacy.loop i m) as [m1 c1]. cbn [snd] in Hloop.
    pose proof (IH m1 (Legacy.commanded s c1)) as Hrest.
    destruct (Legacy.iterations rest m1) as [m2 c2]. cbn [snd] in Hrest |- *.
    rewrite legacy_commanded_app.
    destruct Hrest as [-> | ->]; auto.
Qed.

(** X22: in the first revision the edited speed never reaches the stepper:
    along every run the speed last given to [stepper.setSpeed] is the 1 of
    [setup] or the -500 of Return-Home, whatever [stepperSpeed] has been
    edited to. *)
Theorem legacy_stepper_never_gets_the_edited_speed (inputs : list Inputs) :
  Legacy.commanded None (snd (Legacy.run inputs)) = Some 1
  \/ Legacy.commanded None (snd (Legacy.run inputs)) = Some (-500).
Proof.
  unfold Legacy.run, Legacy.setup.
  pose proof (legacy_iterations_commanded inputs Legacy.powerOn (Some 1)) as H.
  destruct (Legacy.iterations inputs Legacy.powerOn) as [m c].
  cbn [snd] in H |- *. rewrite legacy_commanded_app. exact H.
Qed.

Lemma legacy_stepper_never_gets_the_edited_speed_example :
  let inputs := [turn true 0; press 0; turn false 0; turn false 0; press 0;
                 turn true 0; press 0; quiet 1] in
  Legacy.stepperSpeed (fst (Legacy.run inputs)) = 511
  /\ Legacy.motorRunning (fst (Legacy.run inputs)) = true
  /\ Legacy.commanded None (snd (Legacy.run inputs)) = Some 1.
Proof. repeat split; reflexivity. Qed.
